(** * Aura Intuitive: the consultation server

    A shallow embedding of [src/server.ts] (Express handlers over Stripe,
    Supabase and Resend), of [src/types.ts] and of [schema.sql], and the
    properties of the consultation state machine proved on it.

    Conventions of the embedding:
    - the [consultations] table is a list of rows, in the order in which a
      select without ORDER BY returns them: insertion order, an update
      keeping the place of its row;
    - every handler is a computation in the state monad over [World]: the
      table together with the sequence of effects the handler performed on
      its collaborators (store, payment provider, mailer, console);
    - what the collaborators answer during one request is read from [Env]:
      the handler cannot choose it, the theorems quantify over it;
    - an amount in the table is the exact decimal the NUMERIC column holds;
      read into JavaScript it is a [number], a binary64 float, and the
      arithmetic on it is the float arithmetic of the kernel;
    - a console message is kept by its fixed text. *)

From Stdlib Require Import String Ascii List Bool ZArith QArith Lia.
From Stdlib Require Import Permutation Sorted.
From Stdlib Require Import Floats.PrimFloat Numbers.Cyclic.Int63.Uint63.
From ExtLib Require Import Structures.Monad Structures.MonadState.
From ExtLib Require Import Data.Monads.StateMonad.
Import ListNotations.
Import MonadNotation.
Local Close Scope Q_scope.
Local Open Scope string_scope.
Local Open Scope monad_scope.

(** ** Data model ([src/types.ts], [schema.sql]) *)

(** [status TEXT CHECK (status IN ('paid', 'submitted', 'answered'))] *)
Inductive Status : Type :=
| paid
| submitted
| answered.

Definition Status_eqb (a b : Status) : bool :=
  match a, b with
  | paid, paid | submitted, submitted | answered, answered => true
  | _, _ => false
  end.

(** [interface Consultation]; a nullable column is an [option]. *)
Record Consultation : Type := {
  id : string;
  stripe_session_id : string;
  service : string;
  amount : Q;
  status : Status;
  customer_email : option string;
  name : option string;
  email : option string;
  birthdate : option string;
  person_concerned : option string;
  message : option string;
  response : option string;
  submitted_at : option string;
  answered_at : option string;
  created_at : string
}.

(** [interface SubmitBody], as parsed from the JSON body: an absent
    property reads [undefined], here [None]. *)
Record SubmitBody : Type := {
  body_session_id : option string;
  body_name : option string;
  body_email : option string;
  body_birthdate : option string;
  body_person_concerned : option string;
  body_message : option string
}.

(** [interface RespondBody] *)
Record RespondBody : Type := {
  body_id : option string;
  body_response : option string
}.

(** ** Collaborators *)

(** The part of [Stripe.Checkout.Session] the server reads.
    [customer_details_email] is [session.customer_details?.email]. *)
Inductive PaymentStatus : Type :=
| payment_paid
| payment_unpaid
| no_payment_required.

Record CheckoutSession : Type := {
  session_id : string;
  amount_total : option Z;
  payment_status : PaymentStatus;
  customer_details_email : option string
}.

Record StripeEvent : Type := {
  event_type : string;
  event_data_object : CheckoutSession
}.

(** The argument of [resend.emails.send]. *)
Record Email : Type := {
  mail_from : string;
  mail_to : option string;
  mail_subject : string;
  mail_html : string
}.

(** What [resend.emails.send] resolves to: [{ data, error }], one of the
    two being null. *)
Inductive SendResult : Type :=
| send_data (email_id : string)
| send_error (message : string).

(** What the outside world answers during one request.  A handler issues
    at most one store call of each kind, so one error flag per kind
    describes every behaviour of the store connection. *)
Record Env : Type := {
  (* stripe.webhooks.constructEvent(body, sig, secret): throws (inl) or
     returns the event *)
  constructEvent : string -> string -> string + StripeEvent;
  (* stripe.checkout.sessions.retrieve(id): throws (None) or returns *)
  sessions_retrieve : string -> option CheckoutSession;
  (* resend.emails.send(mail): throws (inl message) or resolves (inr) *)
  emails_send : Email -> string + SendResult;
  (* the store call comes back with its [error] set *)
  select_error : bool;
  insert_error : bool;
  update_error : bool;
  delete_error : bool;
  (* column defaults evaluated by the store on insert *)
  uuid_generate_v4 : string;
  NOW : string;
  (* new Date().toISOString() *)
  toISOString : string;
  EMAIL_FROM : string
}.

(** ** Effects and responses *)

Inductive Effect : Type :=
| ConsoleError (msg : string)
| ConsoleLog (msg : string)
| StripeRetrieve (sid : string)
| SupabaseSelect (column value : string)
| SupabaseSelectIn
| SupabaseInsert (row : Consultation) (ok : bool)
| SupabaseUpdate (column value : string) (ok : bool)
| SupabaseDelete (column value : string) (ok : bool)
| ResendSend (mail : Email) (outcome : string + SendResult).

Inductive Json : Type :=
| JError (error : string)
| JReceived
| JSuccess
| JResponded (success emailSent : bool) (msg : string)
| JStats (total pending answered_count : nat) (revenue : float).

(** What the handler sends: [res.status(n).json(..)] ([res.json] alone
    sends 200), [res.redirect(url)] or [res.sendFile(public/file)]. *)
Inductive Response : Type :=
| json (code : nat) (body : Json)
| redirect (url : string)
| sendFile (file : string).

Record World : Type := {
  consultations : list Consultation;
  trace : list Effect
}.

Definition Handler : Type -> Type := state World.

Definition emit (e : Effect) : Handler unit :=
  modify (fun w => {| consultations := consultations w;
                      trace := trace w ++ [e] |}) ;;
  ret tt.

Definition set_table (t : list Consultation) : Handler unit :=
  modify (fun w => {| consultations := t; trace := trace w |}) ;;
  ret tt.

Definition get_table : Handler (list Consultation) :=
  w <- get ;; ret (consultations w).

(** Runs a handler on a table, from an empty trace. *)
Definition run {A : Type} (h : Handler A) (t : list Consultation) : A * World :=
  runState h {| consultations := t; trace := [] |}.

(** ** JavaScript idioms *)

(** Truthiness of a [string | undefined | null]. *)
Definition truthy (s : option string) : bool :=
  match s with
  | None => false
  | Some EmptyString => false
  | Some (String _ _) => true
  end.

(** [s || other] *)
Definition or_else (s other : option string) : option string :=
  if truthy s then s else other.

(** [n ?? 0] *)
Definition nullish0 (n : option Z) : Z :=
  match n with
  | Some z => z
  | None => 0%Z
  end.

(** [cents / 100] *)
Definition div100 (cents : Z) : Q := (inject_Z cents / inject_Z 100)%Q.

(** The [number] the client reads for a stored decimal: the double
    nearest to it (the quotient of two integers, rounded once; exact
    integers up to 2^53). *)
Definition to_number (q : Q) : float :=
  let magnitude :=
    PrimFloat.div (PrimFloat.of_uint63 (Uint63.of_Z (Z.abs (Qnum q))))
                  (PrimFloat.of_uint63 (Uint63.of_Z (Zpos (Qden q)))) in
  if (Qnum q <? 0)%Z then PrimFloat.opp magnitude else magnitude.

(** [n || 0] on a number: zero (of either sign) and NaN are falsy. *)
Definition number_or_0 (n : float) : float :=
  if PrimFloat.eqb n PrimFloat.zero || PrimFloat.is_nan n
  then PrimFloat.zero else n.

(** ** The store (Supabase client over [schema.sql]) *)

(** [.eq(column, value)] *)
Definition eq_filter (column : Consultation -> string) (value : string)
    (c : Consultation) : bool :=
  String.eqb (column c) value.

(** The columns an insert supplies; the others take their defaults. *)
Record InsertValues : Type := {
  ins_stripe_session_id : string;
  ins_service : string;
  ins_amount : Q;
  ins_status : Status;
  ins_customer_email : option string;
  ins_name : option string;
  ins_email : option string;
  ins_birthdate : option string;
  ins_person_concerned : option string;
  ins_message : option string;
  ins_submitted_at : option string
}.

Definition new_row (env : Env) (v : InsertValues) : Consultation :=
  {| id := uuid_generate_v4 env;
     stripe_session_id := ins_stripe_session_id v;
     service := ins_service v;
     amount := ins_amount v;
     status := ins_status v;
     customer_email := ins_customer_email v;
     name := ins_name v;
     email := ins_email v;
     birthdate := ins_birthdate v;
     person_concerned := ins_person_concerned v;
     message := ins_message v;
     response := None;
     submitted_at := ins_submitted_at v;
     answered_at := None;
     created_at := NOW env |}.

(** [id UUID PRIMARY KEY] and [stripe_session_id TEXT UNIQUE]: the row is
    refused when one of its keys is already in the table. *)
Definition violates_unique (t : list Consultation) (r : Consultation) : bool :=
  existsb (eq_filter id (id r)) t
  || existsb (eq_filter stripe_session_id (stripe_session_id r)) t.

(** [supabase.from('consultations').insert(v)]: the returned [error] is
    set ([true]) or null ([false]). *)
Definition supabase_insert (env : Env) (v : InsertValues) : Handler bool :=
  t <- get_table ;;
  let r := new_row env v in
  if insert_error env || violates_unique t r then
    emit (SupabaseInsert r false) ;; ret true
  else
    set_table (t ++ [r]) ;;
    emit (SupabaseInsert r true) ;; ret false.

(** [.select(..).eq(column, value).single()]: [data] is the one matching
    row; no row, several rows or a failed call give [error] and no data. *)
Definition supabase_select_single (env : Env)
    (colname : string) (column : Consultation -> string) (value : string)
  : Handler (option Consultation) :=
  t <- get_table ;;
  emit (SupabaseSelect colname value) ;;
  if select_error env then ret None
  else match filter (eq_filter column value) t with
       | [r] => ret (Some r)
       | _ => ret None
       end.

Definition in_submitted_answered (c : Consultation) : bool :=
  Status_eqb (status c) submitted || Status_eqb (status c) answered.

(** [.select(..).in('status', ['submitted', 'answered'])]: [None] when the
    call fails. *)
Definition supabase_select_in (env : Env) : Handler (option (list Consultation)) :=
  t <- get_table ;;
  emit SupabaseSelectIn ;;
  if select_error env then ret None
  else ret (Some (filter in_submitted_answered t)).

(** [.update(patch).eq(column, value)]: returns [error]. *)
Definition supabase_update (env : Env) (patch : Consultation -> Consultation)
    (colname : string) (column : Consultation -> string) (value : string)
  : Handler bool :=
  t <- get_table ;;
  if update_error env then
    emit (SupabaseUpdate colname value false) ;; ret true
  else
    set_table (map (fun c => if eq_filter column value c then patch c else c) t) ;;
    emit (SupabaseUpdate colname value true) ;; ret false.

(** [.delete().eq(column, value)]: returns [error]. *)
Definition supabase_delete (env : Env)
    (colname : string) (column : Consultation -> string) (value : string)
  : Handler bool :=
  t <- get_table ;;
  if delete_error env then
    emit (SupabaseDelete colname value false) ;; ret true
  else
    set_table (filter (fun c => negb (eq_filter column value c)) t) ;;
    emit (SupabaseDelete colname value true) ;; ret false.

(** ** 1. Stripe webhook *)

Record WebhookRequest : Type := {
  stripe_signature : option string;
  raw_body : string
}.

(** The label computed by [webhookHandler] (the [if]/[else] on
    [amountTotal >= 1000]). *)
Definition webhook_service (amountTotal : Z) : string :=
  if (amountTotal >=? 1000)%Z then "Consultation Ressenti"
  else "Réponse Oui / Non".

Definition webhookHandler (env : Env) (req : WebhookRequest) : Handler Response :=
  if negb (truthy (stripe_signature req)) then
    ret (json 400 (JError "Missing stripe-signature header"))
  else
    let sig := match stripe_signature req with Some s => s | None => "" end in
    match constructEvent env (raw_body req) sig with
    | inl err_message =>
        emit (ConsoleError ("Webhook signature verification failed: " ++ err_message)) ;;
        ret (json 400 (JError ("Webhook Error: " ++ err_message)))
    | inr event =>
        (if String.eqb (event_type event) "checkout.session.completed" then
           let session := event_data_object event in
           let amountTotal := nullish0 (amount_total session) in
           let service := webhook_service amountTotal in
           error <- supabase_insert env
             {| ins_stripe_session_id := session_id session;
                ins_service := service;
                ins_amount := div100 amountTotal;
                ins_status := paid;
                ins_customer_email := or_else (customer_details_email session) None;
                ins_name := None;
                ins_email := None;
                ins_birthdate := None;
                ins_person_concerned := None;
                ins_message := None;
                ins_submitted_at := None |} ;;
           if (error : bool) then emit (ConsoleError "Supabase insert error")
           else emit (ConsoleLog ("New consultation: " ++ service))
         else ret tt) ;;
        ret (json 200 JReceived)
    end.

(** ** 2. Form page (GET /form) *)

Definition form_handler (env : Env) (query_session_id : option string)
  : Handler Response :=
  if negb (truthy query_session_id) then ret (redirect "/#services")
  else
    let sessionId := match query_session_id with Some s => s | None => "" end in
    data <- supabase_select_single env "stripe_session_id" stripe_session_id sessionId ;;
    match data with
    | None =>
        (* error || !data: maybe the webhook has not fired yet *)
        emit (StripeRetrieve sessionId) ;;
        match sessions_retrieve env sessionId with
        | Some session =>
            match payment_status session with
            | payment_paid => ret (sendFile "form.html")
            | _ => ret (redirect "/#services")
            end
        | None => ret (redirect "/#services")
        end
    | Some d =>
        match status d with
        | paid => ret (sendFile "form.html")
        | _ => ret (sendFile "already-submitted.html")
        end
    end.

(** ** 3. Submit question (POST /api/submit) *)

(** The label computed by the fallback branch of the submit handler (the
    conditional expression on [amountTotal >= 1000]). *)
Definition submit_service (amountTotal : Z) : string :=
  if (amountTotal >=? 1000)%Z then "Consultation Ressenti"
  else "Réponse Oui / Non".

(** The object given to [.update(..)] by the submit handler, applied to a
    row: the columns it does not name keep their value. *)
Definition submit_patch (env : Env) (b : SubmitBody) (c : Consultation)
  : Consultation :=
  {| id := id c;
     stripe_session_id := stripe_session_id c;
     service := service c;
     amount := amount c;
     status := submitted;
     customer_email := customer_email c;
     name := body_name b;
     email := body_email b;
     birthdate := or_else (body_birthdate b) None;
     person_concerned := or_else (body_person_concerned b) None;
     message := body_message b;
     response := response c;
     submitted_at := Some (toISOString env);
     answered_at := answered_at c;
     created_at := created_at c |}.

(** The block under [if (fetchError || !consultation)]: double check with
    Stripe and create the row if the webhook was delayed. *)
Definition submit_fallback (env : Env) (b : SubmitBody) (sid : string)
  : Handler Response :=
  emit (StripeRetrieve sid) ;;
  match sessions_retrieve env sid with
  | None => ret (json 403 (JError "Session de paiement invalide."))
  | Some session =>
      match payment_status session with
      | payment_paid =>
          let amountTotal := nullish0 (amount_total session) in
          let service := submit_service amountTotal in
          insertError <- supabase_insert env
            {| ins_stripe_session_id := sid;
               ins_service := service;
               ins_amount := div100 amountTotal;
               ins_status := submitted;
               ins_customer_email :=
                 or_else (customer_details_email session) (body_email b);
               ins_name := body_name b;
               ins_email := body_email b;
               ins_birthdate := or_else (body_birthdate b) None;
               ins_person_concerned := or_else (body_person_concerned b) None;
               ins_message := body_message b;
               ins_submitted_at := Some (toISOString env) |} ;;
          if (insertError : bool) then
            emit (ConsoleError "Insert on submit") ;;
            ret (json 500 (JError "Erreur lors de l'enregistrement."))
          else ret (json 200 JSuccess)
      | _ => ret (json 403 (JError "Paiement non vérifié."))
      end
  end.

Definition submit_handler (env : Env) (b : SubmitBody) : Handler Response :=
  if negb (truthy (body_session_id b)) || negb (truthy (body_name b))
     || negb (truthy (body_email b)) || negb (truthy (body_message b)) then
    ret (json 400 (JError "Champs obligatoires manquants."))
  else
    let sid := match body_session_id b with Some s => s | None => "" end in
    consultation <- supabase_select_single env "stripe_session_id" stripe_session_id sid ;;
    match consultation with
    | None => submit_fallback env b sid
    | Some c =>
        match status c with
        | paid =>
            (* update the consultation with form data *)
            updateError <- supabase_update env (submit_patch env b)
                             "stripe_session_id" stripe_session_id sid ;;
            if (updateError : bool) then
              emit (ConsoleError "Update error") ;;
              ret (json 500 (JError "Erreur lors de l'enregistrement."))
            else
              emit (ConsoleLog ("Question submitted for session " ++ sid)) ;;
              ret (json 200 JSuccess)
        | _ =>
            ret (json 400 (JError
              "Vous avez déjà soumis votre question pour cette consultation."))
        end
    end.

(** ** Admin *)

(** [requireAdmin]: [admin] is [req.session?.admin]. *)
Definition requireAdmin (admin : bool) (next : Handler Response)
  : Handler Response :=
  if admin then next else ret (json 401 (JError "Non autorisé.")).

(** *** Stats (GET /api/admin/stats) *)

Definition stats_handler (env : Env) (admin : bool) : Handler Response :=
  requireAdmin admin (
    data <- supabase_select_in env ;;
    match data with
    | None => ret (json 500 (JError "Erreur base de données."))
    | Some all =>
        let pending :=
          length (filter (fun c => Status_eqb (status c) submitted) all) in
        let answered_count :=
          length (filter (fun c => Status_eqb (status c) answered) all) in
        let revenue :=
          fold_left
            (fun sum c => PrimFloat.add sum (number_or_0 (to_number (amount c))))
            all PrimFloat.zero in
        ret (json 200 (JStats (length all) pending answered_count revenue))
    end).

(** *** Email template *)

(** [response.replace(/\n/g, '<br>')] *)
Fixpoint replace_newlines (s : string) : string :=
  match s with
  | EmptyString => EmptyString
  | String c rest =>
      if Ascii.eqb c "010"%char then "<br>" ++ replace_newlines rest
      else String c (replace_newlines rest)
  end.

(** A null interpolated in a template literal reads [null]. *)
Definition interpolate (s : option string) : string :=
  match s with
  | Some v => v
  | None => "null"
  end.

(** The template literal of [buildResponseEmail], cut at its three holes.
    [dq] is the double quote and [nl] the line feed of the source text. *)
Definition dq : string := String (ascii_of_nat 34) EmptyString.

Definition nl : string := String "010"%char EmptyString.

(** From the opening backquote to [${consultation.name}]. *)
Definition email_opening : string :=
  nl
  ++ "<!DOCTYPE html>" ++ nl
  ++ "<html lang=" ++ dq ++ "fr" ++ dq ++ ">" ++ nl
  ++ "<head><meta charset=" ++ dq ++ "UTF-8" ++ dq ++ "></head>" ++ nl
  ++ "<body style=" ++ dq ++ "margin:0;padding:0;background:#1a0a10;font-family:'Segoe UI',Arial,sans-serif;" ++ dq ++ ">" ++ nl
  ++ "  <div style=" ++ dq ++ "max-width:600px;margin:0 auto;background:linear-gradient(135deg,#2a1520,#1a0a10);border:1px solid rgba(123,45,63,0.4);border-radius:16px;overflow:hidden;" ++ dq ++ ">" ++ nl
  ++ nl
  ++ "    <!-- Header -->" ++ nl
  ++ "    <div style=" ++ dq ++ "background:linear-gradient(135deg,#7b2d3f,#5c1a2e);padding:32px 24px;text-align:center;" ++ dq ++ ">" ++ nl
  ++ "      <h1 style=" ++ dq ++ "color:#d4a76a;margin:0;font-size:24px;letter-spacing:2px;" ++ dq ++ ">✦ Aura Intuitive ✦</h1>" ++ nl
  ++ "      <p style=" ++ dq ++ "color:rgba(255,255,255,0.7);margin:8px 0 0;font-size:14px;" ++ dq ++ ">Votre guidance spirituelle</p>" ++ nl
  ++ "    </div>" ++ nl
  ++ nl
  ++ "    <!-- Body -->" ++ nl
  ++ "    <div style=" ++ dq ++ "padding:32px 24px;" ++ dq ++ ">" ++ nl
  ++ "      <p style=" ++ dq ++ "color:#e8d5c4;font-size:16px;margin:0 0 8px;" ++ dq ++ ">Bonjour <strong>".

(** From there to [${consultation.service}]. *)
Definition email_after_name : string :=
  "</strong>,</p>" ++ nl
  ++ "      <p style=" ++ dq ++ "color:rgba(232,213,196,0.7);font-size:14px;margin:0 0 24px;" ++ dq ++ ">" ++ nl
  ++ "        Voici la réponse à votre <strong style=" ++ dq ++ "color:#d4a76a;" ++ dq ++ ">".

(** From there to [${responseHtml}]. *)
Definition email_after_service : string :=
  "</strong> :" ++ nl
  ++ "      </p>" ++ nl
  ++ nl
  ++ "      <!-- Response box -->" ++ nl
  ++ "      <div style=" ++ dq ++ "background:rgba(123,45,63,0.15);border:1px solid rgba(212,167,106,0.3);border-radius:12px;padding:24px;margin:0 0 24px;" ++ dq ++ ">" ++ nl
  ++ "        <p style=" ++ dq ++ "color:#d4a76a;font-size:13px;text-transform:uppercase;letter-spacing:1px;margin:0 0 12px;" ++ dq ++ ">🔮 Ma guidance</p>" ++ nl
  ++ "        <p style=" ++ dq ++ "color:#e8d5c4;font-size:15px;line-height:1.7;margin:0;" ++ dq ++ ">".

(** From there to the closing backquote. *)
Definition email_closing : string :=
  "</p>" ++ nl
  ++ "      </div>" ++ nl
  ++ nl
  ++ "      <p style=" ++ dq ++ "color:rgba(232,213,196,0.5);font-size:13px;margin:0;text-align:center;" ++ dq ++ ">" ++ nl
  ++ "        Merci de votre confiance. ✨<br>" ++ nl
  ++ "        Avec lumière et bienveillance,<br>" ++ nl
  ++ "        <strong style=" ++ dq ++ "color:#d4a76a;" ++ dq ++ ">Sarah — Aura Intuitive</strong>" ++ nl
  ++ "      </p>" ++ nl
  ++ "    </div>" ++ nl
  ++ nl
  ++ "    <!-- Footer -->" ++ nl
  ++ "    <div style=" ++ dq ++ "border-top:1px solid rgba(123,45,63,0.3);padding:16px 24px;text-align:center;" ++ dq ++ ">" ++ nl
  ++ "      <p style=" ++ dq ++ "color:rgba(232,213,196,0.3);font-size:11px;margin:0;" ++ dq ++ ">" ++ nl
  ++ "        © 2026 Aura Intuitive — Cet email a été envoyé automatiquement, merci de ne pas y répondre." ++ nl
  ++ "      </p>" ++ nl
  ++ "    </div>" ++ nl
  ++ "  </div>" ++ nl
  ++ "</body>" ++ nl
  ++ "</html>".

Definition buildResponseEmail (consultation : Consultation)
    (response_text : string) : string :=
  let responseHtml := replace_newlines response_text in
  email_opening ++ interpolate (name consultation) ++ email_after_name
  ++ service consultation ++ email_after_service
  ++ responseHtml ++ email_closing.

(** *** Respond to consultation (POST /api/admin/respond) *)

Definition respond_patch (env : Env) (response_text : string) (c : Consultation)
  : Consultation :=
  {| id := id c;
     stripe_session_id := stripe_session_id c;
     service := service c;
     amount := amount c;
     status := answered;
     customer_email := customer_email c;
     name := name c;
     email := email c;
     birthdate := birthdate c;
     person_concerned := person_concerned c;
     message := message c;
     response := Some response_text;
     submitted_at := submitted_at c;
     answered_at := Some (toISOString env);
     created_at := created_at c |}.

(** The object the respond handler gives to [resend.emails.send]. *)
Definition respond_mail (env : Env) (consultation : Consultation)
    (response_text : string) : Email :=
  {| mail_from := EMAIL_FROM env;
     mail_to := email consultation;
     mail_subject :=
       "🔮 Votre guidance Aura Intuitive — " ++ service consultation;
     mail_html := buildResponseEmail consultation response_text |}.

Definition respond_handler (env : Env) (admin : bool) (b : RespondBody)
  : Handler Response :=
  requireAdmin admin (
    if negb (truthy (body_id b)) || negb (truthy (body_response b)) then
      ret (json 400 (JError "Champs manquants."))
    else
      let rid := match body_id b with Some s => s | None => "" end in
      let response_text :=
        match body_response b with Some s => s | None => "" end in
      consultation <- supabase_select_single env "id" id rid ;;
      match consultation with
      | None => ret (json 404 (JError "Consultation introuvable."))
      | Some c =>
          (* update status first (always save the response) *)
          updateError <- supabase_update env (respond_patch env response_text)
                           "id" id rid ;;
          if (updateError : bool) then
            emit (ConsoleError "Update error") ;;
            ret (json 500 (JError "Erreur lors de la mise à jour."))
          else
            (* try to send email (best effort) *)
            let mail := respond_mail env c response_text in
            match emails_send env mail with
            | inr resolved =>
                (* the resolved value is not looked at *)
                emit (ResendSend mail (inr resolved)) ;;
                emit (ConsoleLog
                  ("Response sent + email delivered for consultation " ++ rid)) ;;
                ret (json 200 (JResponded true true
                  "Réponse enregistrée et email envoyé !"))
            | inl err_message =>
                emit (ResendSend mail (inl err_message)) ;;
                emit (ConsoleError
                  ("Email send failed (response saved anyway): " ++ err_message)) ;;
                ret (json 200 (JResponded true false
                  "Réponse enregistrée ✅ mais l'email n'a pas pu être envoyé. Vous pouvez copier la réponse et l'envoyer manuellement."))
            end
      end).

(** *** Delete consultation (DELETE /api/admin/consultations/:id) *)

Definition delete_handler (env : Env) (admin : bool) (param_id : string)
  : Handler Response :=
  requireAdmin admin (
    error <- supabase_delete env "id" id param_id ;;
    if (error : bool) then
      emit (ConsoleError "Delete error") ;;
      ret (json 500 (JError "Erreur lors de la suppression."))
    else
      emit (ConsoleLog ("Consultation " ++ param_id ++ " deleted")) ;;
      ret (json 200 JSuccess)).

(** ** The three mutating operations of the state machine *)

Inductive Operation : Type :=
| OpWebhook (req : WebhookRequest)
| OpSubmit (b : SubmitBody)
| OpRespond (admin : bool) (b : RespondBody).

Definition perform (env : Env) (op : Operation) : Handler Response :=
  match op with
  | OpWebhook req => webhookHandler env req
  | OpSubmit b => submit_handler env b
  | OpRespond admin b => respond_handler env admin b
  end.

(** Reply, table and trace once a handler has run on table [t]. *)
Definition reply (h : Handler Response) (t : list Consultation) : Response :=
  fst (run h t).

Definition table_after (h : Handler Response) (t : list Consultation)
  : list Consultation :=
  consultations (snd (run h t)).

Definition trace_of (h : Handler Response) (t : list Consultation)
  : list Effect :=
  trace (snd (run h t)).

(** ** Vocabulary of the properties *)

(** The key constraints of [schema.sql] hold in a table. *)
Definition store_ok (t : list Consultation) : Prop :=
  NoDup (map id t) /\ NoDup (map stripe_session_id t).

(** One step along [paid -> submitted -> answered], or no move. *)
Definition forward_step (a b : Status) : Prop :=
  a = b \/ (a = paid /\ b = submitted) \/ (a = submitted /\ b = answered).

Definition status_rank (s : Status) : nat :=
  match s with
  | paid => 0
  | submitted => 1
  | answered => 2
  end.

(** The status discipline as the data model words it: whatever the
    operation, a row found again afterwards under the same id has moved by
    a forward step at most. *)
Definition status_only_steps_forward : Prop :=
  forall (env : Env) (op : Operation) (t : list Consultation)
         (c c' : Consultation),
    store_ok t ->
    In c t -> In c' (table_after (perform env op) t) -> id c' = id c ->
    forward_step (status c) (status c').

(** A submit body that passes the required-field check. *)
Definition required_fields (b : SubmitBody) : Prop :=
  truthy (body_session_id b) = true /\ truthy (body_name b) = true /\
  truthy (body_email b) = true /\ truthy (body_message b) = true.

(** The signature header is present and [constructEvent] returns [ev]. *)
Definition signature_verifies (env : Env) (req : WebhookRequest)
    (ev : StripeEvent) : Prop :=
  exists sig, stripe_signature req = Some sig /\ truthy (Some sig) = true /\
              constructEvent env (raw_body req) sig = inr ev.

(** The header is missing (or empty), or [constructEvent] throws. *)
Definition signature_rejected (env : Env) (req : WebhookRequest) : Prop :=
  truthy (stripe_signature req) = false \/
  exists sig m, stripe_signature req = Some sig /\
                constructEvent env (raw_body req) sig = inl m.

(** Counting and summing as the description of the stats endpoint words
    them, directly on the table. *)
Definition aggregated (s : Status) : bool :=
  match s with
  | submitted | answered => true
  | paid => false
  end.

Fixpoint count_where (p : Status -> bool) (t : list Consultation) : nat :=
  match t with
  | [] => 0
  | c :: rest => (if p (status c) then 1 else 0) + count_where p rest
  end.

(** The amounts of the rows whose status satisfies [p], added to [acc] as
    the code adds numbers: in doubles, one row after the other in the
    order of the table, an amount that reads as 0 counting as 0
    ([c.amount || 0]). *)
Fixpoint add_amounts_where (p : Status -> bool) (acc : float)
    (t : list Consultation) : float :=
  match t with
  | [] => acc
  | c :: rest =>
      if p (status c)
      then add_amounts_where p
             (PrimFloat.add acc (number_or_0 (to_number (amount c)))) rest
      else add_amounts_where p acc rest
  end.

(** The rows a delete of [pid] does not address. *)
Definition other_row (pid : string) (c : Consultation) : bool :=
  negb (eq_filter id pid c).

(** [resend.emails.send] returned, whatever it resolved to, instead of
    throwing. *)
Definition send_returned (env : Env) (mail : Email) : bool :=
  match emails_send env mail with
  | inr _ => true
  | inl _ => false
  end.

(** The mailer took the mail: the call resolved with [data]. *)
Definition email_delivered (env : Env) (mail : Email) : bool :=
  match emails_send env mail with
  | inr (send_data _) => true
  | _ => false
  end.

(** The provider returns the session and reports it paid. *)
Definition verified_paid (env : Env) (sid : string) : bool :=
  match sessions_retrieve env sid with
  | Some session =>
      match payment_status session with
      | payment_paid => true
      | _ => false
      end
  | None => false
  end.

(** ** Sample data *)

Definition sample_session : CheckoutSession :=
  {| session_id := "cs_123";
     amount_total := Some 1500%Z;
     payment_status := payment_paid;
     customer_details_email := Some "client@example.com" |}.

Definition sample_event : StripeEvent :=
  {| event_type := "checkout.session.completed";
     event_data_object := sample_session |}.

(** A world where the signature [t=1,v1=ok] verifies, the provider knows
    [cs_123] as paid, and the store and the mailer work or not. *)
Definition sample_env (store_down mail_down : bool) : Env :=
  {| constructEvent := fun _ sig =>
       if String.eqb sig "t=1,v1=ok" then inr sample_event
       else inl "No signatures found matching the expected signature";
     sessions_retrieve := fun sid =>
       if String.eqb sid "cs_123" then Some sample_session else None;
     emails_send := fun _ =>
       if mail_down then inl "connect ETIMEDOUT" else inr (send_data "e1");
     select_error := false;
     insert_error := store_down;
     update_error := store_down;
     delete_error := store_down;
     uuid_generate_v4 := "b2";
     NOW := "2026-01-01T09:00:00Z";
     toISOString := "2026-01-01T10:00:00.000Z";
     EMAIL_FROM := "Aura Intuitive <noreply@auraintuitive.com>" |}.

(** The same world with the store working and a mailer that answers but
    refuses the mail: the call resolves with [error] set. *)
Definition sample_env_mail_refused : Env :=
  {| constructEvent := constructEvent (sample_env false false);
     sessions_retrieve := sessions_retrieve (sample_env false false);
     emails_send := fun _ => inr (send_error "API key is invalid");
     select_error := false;
     insert_error := false;
     update_error := false;
     delete_error := false;
     uuid_generate_v4 := "b2";
     NOW := "2026-01-01T09:00:00Z";
     toISOString := "2026-01-01T10:00:00.000Z";
     EMAIL_FROM := "Aura Intuitive <noreply@auraintuitive.com>" |}.

Definition sample_row (rid sid : string) (st : Status) (euros : Z)
  : Consultation :=
  {| id := rid;
     stripe_session_id := sid;
     service := webhook_service (euros * 100);
     amount := inject_Z euros;
     status := st;
     customer_email := Some "client@example.com";
     name := match st with paid => None | _ => Some "Lina" end;
     email := match st with paid => None | _ => Some "lina@example.com" end;
     birthdate := None;
     person_concerned := None;
     message := match st with paid => None | _ => Some "Dois-je partir ?" end;
     response := match st with answered => Some "Oui." | _ => None end;
     submitted_at :=
       match st with paid => None | _ => Some "2026-01-01T09:30:00.000Z" end;
     answered_at :=
       match st with answered => Some "2026-01-01T09:45:00.000Z" | _ => None end;
     created_at := "2026-01-01T09:00:00Z" |}.

Definition sample_body (sid : string) : SubmitBody :=
  {| body_session_id := Some sid;
     body_name := Some "Lina";
     body_email := Some "lina@example.com";
     body_birthdate := None;
     body_person_concerned := Some "";
     body_message := Some "Dois-je partir ?" |}.

Definition sample_answer (rid : string) : RespondBody :=
  {| body_id := Some rid; body_response := Some "Voici ma guidance" |}.

Definition sample_webhook (sig : option string) : WebhookRequest :=
  {| stripe_signature := sig; raw_body := "{}" |}.

(** ** The rest of the server *)

(** *** Env validation *)

Definition required : list string :=
  ["STRIPE_SECRET_KEY"; "STRIPE_WEBHOOK_SECRET"; "SUPABASE_URL";
   "SUPABASE_SERVICE_KEY"; "RESEND_API_KEY"; "ADMIN_PASSWORD"].

(** The loop [for (const key of required)] over [process.env]: the first
    key that is unset or empty is reported and the process exits. *)
Fixpoint first_missing (process_env : string -> option string)
    (keys : list string) : option string :=
  match keys with
  | [] => None
  | key :: rest =>
      if negb (truthy (process_env key)) then Some key
      else first_missing process_env rest
  end.

(** [Some key]: the server prints the key and exits with code 1;
    [None]: it goes on to create its clients. *)
Definition validate_env (process_env : string -> option string)
  : option string :=
  first_missing process_env required.

(** *** Admin login and logout *)

(** [req.session] as cookie-session hands it to a handler: an object
    whose [admin] property, when absent, reads as false. *)
Record Session : Type := {
  session_admin : bool
}.

(** What a handler leaves in [req.session]: the object, or null. *)
Definition SessionSlot : Type := option Session.

(** [req.session?.admin] *)
Definition is_admin (slot : SessionSlot) : bool :=
  match slot with
  | Some s => session_admin s
  | None => false
  end.

(** The session the next request starts with: a cleared cookie gives a
    new, empty object. *)
Definition next_session (slot : SessionSlot) : Session :=
  match slot with
  | Some s => s
  | None => {| session_admin := false |}
  end.

(** [password === process.env.ADMIN_PASSWORD] *)
Definition password_matches (ADMIN_PASSWORD : string)
    (password : option string) : bool :=
  match password with
  | Some p => String.eqb p ADMIN_PASSWORD
  | None => false
  end.

(** POST /api/admin/login *)
Definition login_handler (ADMIN_PASSWORD : string) (password : option string)
    (session : Session) : Response * SessionSlot :=
  if password_matches ADMIN_PASSWORD password then
    (json 200 JSuccess, Some {| session_admin := true |})
  else
    (json 401 (JError "Mot de passe incorrect."), Some session).

(** POST /api/admin/logout *)
Definition logout_handler (session : Session) : Response * SessionSlot :=
  (json 200 JSuccess, None).

(** *** List consultations (GET /api/admin/consultations) *)

(** [a] may come before [b] under [ORDER BY submitted_at DESC]: nulls
    sort first in descending order, and two timestamps written by
    [toISOString] compare as their characters do. *)
Definition later_first (a b : Consultation) : bool :=
  match submitted_at a, submitted_at b with
  | None, _ => true
  | Some _, None => false
  | Some x, Some y => String.leb y x
  end.

Fixpoint insert_desc (c : Consultation) (rows : list Consultation)
  : list Consultation :=
  match rows with
  | [] => [c]
  | x :: rest =>
      if later_first c x then c :: x :: rest
      else x :: insert_desc c rest
  end.

(** [.order('submitted_at', { ascending: false })] *)
Definition order_desc (rows : list Consultation) : list Consultation :=
  fold_right insert_desc [] rows.

(** [.select('*').in('status', [..]).order('submitted_at', ..)]: [None]
    when the call fails. *)
Definition supabase_select_in_ordered (env : Env)
  : Handler (option (list Consultation)) :=
  t <- get_table ;;
  emit SupabaseSelectIn ;;
  if select_error env then ret None
  else ret (Some (order_desc (filter in_submitted_answered t))).

(** The handler sends either an error response or the rows themselves
    ([res.json(data ?? [])], status 200). *)
Definition list_handler (env : Env) (admin : bool)
  : Handler (Response + list Consultation) :=
  if admin then
    data <- supabase_select_in_ordered env ;;
    match data with
    | None => ret (inl (json 500 (JError "Erreur base de données.")))
    | Some rows => ret (inr rows)
    end
  else ret (inl (json 401 (JError "Non autorisé."))).

(** *** Test route (GET /test) *)

(** [date_now] is [Date.now()] as the string concatenation prints it;
    [error_message] is the [message] of the store error, if any. *)
Definition test_handler (env : Env) (date_now error_message : string)
  : Handler Response :=
  let fakeSessionId := "test_" ++ date_now in
  error <- supabase_insert env
    {| ins_stripe_session_id := fakeSessionId;
       ins_service := "Consultation Ressenti";
       ins_amount := inject_Z 10;
       ins_status := paid;
       ins_customer_email := Some "test@test.com";
       ins_name := None;
       ins_email := None;
       ins_birthdate := None;
       ins_person_concerned := None;
       ins_message := None;
       ins_submitted_at := None |} ;;
  if (error : bool) then
    emit (ConsoleError "Test insert error") ;;
    ret (json 500 (JError error_message))
  else
    emit (ConsoleLog ("Test consultation created: " ++ fakeSessionId)) ;;
    ret (redirect ("/form?session_id=" ++ fakeSessionId)).

(** *** Serve admin page (GET /admin) *)

Definition admin_page : Response := sendFile "admin.html".

(** ** Every route at once *)

Inductive Route : Type :=
| RWebhook (req : WebhookRequest)
| RForm (query_session_id : option string)
| RSubmit (b : SubmitBody)
| RTest (date_now error_message : string)
| RStats (admin : bool)
| RList (admin : bool)
| RRespond (admin : bool) (b : RespondBody)
| RDelete (admin : bool) (param_id : string)
| RAdminPage.

(** The world a route leaves, started on table [t] with an empty trace. *)
Definition world_after (env : Env) (r : Route) (t : list Consultation) : World :=
  match r with
  | RWebhook req => snd (run (webhookHandler env req) t)
  | RForm q => snd (run (form_handler env q) t)
  | RSubmit b => snd (run (submit_handler env b) t)
  | RTest date_now error_message =>
      snd (run (test_handler env date_now error_message) t)
  | RStats admin => snd (run (stats_handler env admin) t)
  | RList admin => snd (run (list_handler env admin) t)
  | RRespond admin b => snd (run (respond_handler env admin b) t)
  | RDelete admin pid => snd (run (delete_handler env admin pid) t)
  | RAdminPage => snd (run (ret admin_page) t)
  end.

(** A history: requests served one after the other, each under what the
    collaborators answered at that time. *)
Fixpoint replay (history : list (Env * Route)) (t : list Consultation)
  : list Consultation :=
  match history with
  | [] => t
  | (env, r) :: rest => replay rest (consultations (world_after env r t))
  end.

(** ** Vocabulary of the further properties *)

Definition mails (tr : list Effect) : list Email :=
  flat_map (fun e => match e with ResendSend m _ => [m] | _ => [] end) tr.

Definition provider_calls (tr : list Effect) : list string :=
  flat_map (fun e => match e with StripeRetrieve sid => [sid] | _ => [] end) tr.

(** A nullable text column holds null or a non-empty string. *)
Definition null_or_filled (o : option string) : Prop :=
  o = None \/ truthy o = true.

(** The columns a row carries at each status. *)
Definition lifecycle_ok (c : Consultation) : Prop :=
  match status c with
  | paid =>
      name c = None /\ email c = None /\ birthdate c = None /\
      person_concerned c = None /\ message c = None /\
      submitted_at c = None /\ response c = None /\ answered_at c = None
  | submitted =>
      truthy (name c) = true /\ truthy (email c) = true /\
      truthy (message c) = true /\ submitted_at c <> None /\
      response c = None /\ answered_at c = None
  | answered =>
      truthy (response c) = true /\ answered_at c <> None
  end.

Definition optional_columns_ok (c : Consultation) : Prop :=
  null_or_filled (customer_email c) /\ null_or_filled (birthdate c) /\
  null_or_filled (person_concerned c).

(** The label goes with the amount in currency units: premium from 10. *)
Definition label_matches_amount (c : Consultation) : Prop :=
  ((inject_Z 10 <= amount c)%Q /\ service c = "Consultation Ressenti") \/
  ((amount c < inject_Z 10)%Q /\ service c = "Réponse Oui / Non").

Definition newline : ascii := "010"%char.

Fixpoint count_newlines (s : string) : nat :=
  match s with
  | EmptyString => 0
  | String c rest =>
      (if Ascii.eqb c newline then 1 else 0) + count_newlines rest
  end.

Fixpoint has_newline (s : string) : bool :=
  match s with
  | EmptyString => false
  | String c rest => Ascii.eqb c newline || has_newline rest
  end.

(** *** The rows the handlers insert *)

(** The object [webhookHandler] gives to [.insert(..)]. *)
Definition webhook_values (session : CheckoutSession) : InsertValues :=
  {| ins_stripe_session_id := session_id session;
     ins_service := webhook_service (nullish0 (amount_total session));
     ins_amount := div100 (nullish0 (amount_total session));
     ins_status := paid;
     ins_customer_email := or_else (customer_details_email session) None;
     ins_name := None;
     ins_email := None;
     ins_birthdate := None;
     ins_person_concerned := None;
     ins_message := None;
     ins_submitted_at := None |}.

(** The object the fallback block of the submit handler inserts. *)
Definition fallback_values (env : Env) (b : SubmitBody) (sid : string)
    (session : CheckoutSession) : InsertValues :=
  {| ins_stripe_session_id := sid;
     ins_service := submit_service (nullish0 (amount_total session));
     ins_amount := div100 (nullish0 (amount_total session));
     ins_status := submitted;
     ins_customer_email :=
       or_else (customer_details_email session) (body_email b);
     ins_name := body_name b;
     ins_email := body_email b;
     ins_birthdate := or_else (body_birthdate b) None;
     ins_person_concerned := or_else (body_person_concerned b) None;
     ins_message := body_message b;
     ins_submitted_at := Some (toISOString env) |}.

(** The object the test route inserts. *)
Definition test_values (date_now : string) : InsertValues :=
  {| ins_stripe_session_id := "test_" ++ date_now;
     ins_service := "Consultation Ressenti";
     ins_amount := inject_Z 10;
     ins_status := paid;
     ins_customer_email := Some "test@test.com";
     ins_name := None;
     ins_email := None;
     ins_birthdate := None;
     ins_person_concerned := None;
     ins_message := None;
     ins_submitted_at := None |}.

(** The values some handler may insert under [env]. *)
Inductive inserted (env : Env) : InsertValues -> Prop :=
| inserted_webhook (session : CheckoutSession) :
    inserted env (webhook_values session)
| inserted_fallback (b : SubmitBody) (sid : string) (session : CheckoutSession) :
    required_fields b -> inserted env (fallback_values env b sid session)
| inserted_test (date_now : string) :
    inserted env (test_values date_now).

(** What a submit request may leave behind: no mail, at most one question
    to the provider, asked only when the lookup gave no row, and a table
    that is unchanged, one fallback row longer, or has its one [paid] row
    of the session patched. *)
Definition submit_outcome (env : Env) (b : SubmitBody) (t : list Consultation)
    (w : World) : Prop :=
  mails (trace w) = [] /\
  (provider_calls (trace w) = [] \/
   exists sid,
     body_session_id b = Some sid /\ provider_calls (trace w) = [sid] /\
     (select_error env = true \/
      forall c, filter (eq_filter stripe_session_id sid) t <> [c])) /\
  (consultations w = t \/
   (exists sid session,
      required_fields b /\
      violates_unique t (new_row env (fallback_values env b sid session)) = false /\
      consultations w
      = (t ++ [new_row env (fallback_values env b sid session)])%list) \/
   (exists sid c,
      required_fields b /\
      filter (eq_filter stripe_session_id sid) t = [c] /\ status c = paid /\
      consultations w
      = map (fun x => if eq_filter stripe_session_id sid x
                      then submit_patch env b x else x) t)).

(** The columns no handler rewrites once the row exists. *)
Definition same_payment_data (c c' : Consultation) : Prop :=
  id c' = id c /\ stripe_session_id c' = stripe_session_id c /\
  service c' = service c /\ amount c' = amount c /\
  customer_email c' = customer_email c /\ created_at c' = created_at c.

(** *** Sequences of login and logout requests *)

Inductive AuthRequest : Type :=
| AuthLogin (password : option string)
| AuthLogout.

(** One login or logout request, and the session the next request
    starts with. *)
Definition auth_step (ADMIN_PASSWORD : string) (s : Session) (a : AuthRequest)
  : Session :=
  match a with
  | AuthLogin password =>
      next_session (snd (login_handler ADMIN_PASSWORD password s))
  | AuthLogout => next_session (snd (logout_handler s))
  end.

Definition auth_session (ADMIN_PASSWORD : string) (s : Session)
    (requests : list AuthRequest) : Session :=
  fold_left (auth_step ADMIN_PASSWORD) requests s.

(** A [process.env] for the samples: every required key but [missing]. *)
Definition sample_process_env (missing : string) (key : string)
  : option string :=
  if String.eqb key missing then None
  else if existsb (String.eqb key) required then Some "set"
  else None.

(** * Properties *)

(** ** Lookups in a table *)

Section KeyLookup.

Variable column : Consultation -> string.

Lemma eq_filter_true (v : string) (c : Consultation) :
  eq_filter column v c = true <-> column c = v.
Proof. unfold eq_filter. apply String.eqb_eq. Qed.

Lemma eq_filter_false (v : string) (c : Consultation) :
  eq_filter column v c = false <-> column c <> v.
Proof. unfold eq_filter. apply String.eqb_neq. Qed.

Lemma filter_absent (v : string) (t : list Consultation) :
  (forall r, In r t -> column r <> v) ->
  filter (eq_filter column v) t = [].
Proof.
  induction t as [|a t IH]; intros Hno; [reflexivity|].
  simpl. assert (Ha : eq_filter column v a = false).
  { apply eq_filter_false, Hno. now left. }
  rewrite Ha. apply IH. intros r Hr. apply Hno. now right.
Qed.

Lemma filter_unique (t : list Consultation) (c : Consultation) :
  NoDup (map column t) -> In c t ->
  filter (eq_filter column (column c)) t = [c].
Proof.
  induction t as [|a t IH]; intros Hnd Hin; [destruct Hin|].
  simpl in Hnd. inversion Hnd as [|k ks Hfresh Hrest]; subst.
  simpl. destruct Hin as [->|Hin].
  - assert (Hc : eq_filter column (column c) c = true)
      by now apply eq_filter_true.
    rewrite Hc. f_equal. apply filter_absent.
    intros r Hr Heq. apply Hfresh. rewrite <- Heq. now apply in_map.
  - assert (Ha : eq_filter column (column c) a = false).
    { apply eq_filter_false. intros Heq. apply Hfresh.
      rewrite Heq. now apply in_map. }
    rewrite Ha. now apply IH.
Qed.

Lemma filter_singleton_in (v : string) (t : list Consultation)
    (c : Consultation) :
  filter (eq_filter column v) t = [c] -> In c t /\ column c = v.
Proof.
  intros Hf. assert (Hin : In c (filter (eq_filter column v) t))
    by (rewrite Hf; now left).
  apply filter_In in Hin. destruct Hin as [Hin Heq].
  split; [exact Hin | now apply eq_filter_true].
Qed.

(** Patching the rows a filter keeps, read position by position. *)
Lemma map_patch_nth (v : string) (patch : Consultation -> Consultation)
    (t : list Consultation) (i : nat) (x : Consultation) :
  nth_error t i = Some x ->
  nth_error (map (fun r => if eq_filter column v r then patch r else r) t) i
  = Some (if eq_filter column v x then patch x else x).
Proof.
  intros Hx. rewrite nth_error_map, Hx. reflexivity.
Qed.

End KeyLookup.

(** ** Tactics and key lookups *)

Arguments eq_filter : simpl never.
Arguments submit_fallback : simpl never.
Arguments submit_outcome : simpl never.
Arguments respond_mail : simpl never.
Arguments buildResponseEmail : simpl never.

Ltac unfold_obs := unfold reply, table_after, trace_of in *.
Ltac unfold_run := unfold_obs; unfold run in *.

(** Closes a membership hypothesis in a trace written out in full. *)
Ltac trace_cases H :=
  repeat (destruct H as [H|H]; [try discriminate H|]); try destruct H.

(** Discharges [store_ok] on a table written out in full. *)
Ltac table_ok :=
  split; simpl;
  repeat (constructor; [simpl; intuition discriminate|]); constructor.

(** What the lookup by session id gives the two customer-facing handlers. *)
Lemma session_lookup_found (t : list Consultation) (c : Consultation) :
  store_ok t -> In c t ->
  filter (eq_filter stripe_session_id (stripe_session_id c)) t = [c].
Proof. intros [_ Hnd] Hin. now apply filter_unique. Qed.

Lemma id_lookup_found (t : list Consultation) (c : Consultation) :
  store_ok t -> In c t ->
  filter (eq_filter id (id c)) t = [c].
Proof. intros [Hnd _] Hin. now apply filter_unique. Qed.

Lemma unique_key_row (column : Consultation -> string)
    (t : list Consultation) (x c : Consultation) :
  NoDup (map column t) -> In x t -> In c t -> column x = column c -> x = c.
Proof.
  intros Hnd Hx Hc Heq.
  assert (Hin : In x (filter (eq_filter column (column c)) t)).
  { apply filter_In. split; [exact Hx | now apply eq_filter_true]. }
  rewrite (filter_unique column t c Hnd Hc) in Hin.
  destruct Hin as [Hin|[]]. now symmetry.
Qed.

(** Rewrites the required-field check of a valid body away. *)
Ltac pass_required Hreq :=
  let H1 := fresh in let H2 := fresh in let H3 := fresh in let H4 := fresh in
  destruct Hreq as (H1 & H2 & H3 & H4); rewrite H1, H2, H3, H4; cbn [negb orb].

(** ** What each operation does to the table *)

Lemma webhook_table (env : Env) (req : WebhookRequest) (t : list Consultation) :
  table_after (webhookHandler env req) t = t \/
  exists r, status r = paid /\ violates_unique t r = false /\
            table_after (webhookHandler env req) t = (t ++ [r])%list.
Proof.
  unfold_run; unfold webhookHandler.
  destruct (truthy (stripe_signature req)); cbn; [|now left].
  destruct (constructEvent env _ _) as [m|ev]; cbn; [now left|].
  destruct (String.eqb (event_type ev) "checkout.session.completed");
    cbn; [|now left].
  unfold supabase_insert. cbn.
  destruct (insert_error env || violates_unique t _) eqn:E; cbn; [now left|].
  apply orb_false_iff in E. destruct E as [_ E].
  right. eexists. split; [|split; [exact E | reflexivity]]. reflexivity.
Qed.

(** The fallback block either leaves the table and refuses, or appends one
    submitted row for the session and answers success. *)
Lemma submit_fallback_outcome (env : Env) (b : SubmitBody) (sid : string)
    (w : World) :
  (consultations (snd (runState (submit_fallback env b sid) w)) = consultations w /\
   fst (runState (submit_fallback env b sid) w) <> json 200 JSuccess) \/
  exists r, status r = submitted /\ stripe_session_id r = sid /\
    violates_unique (consultations w) r = false /\
    consultations (snd (runState (submit_fallback env b sid) w))
    = (consultations w ++ [r])%list /\
    fst (runState (submit_fallback env b sid) w) = json 200 JSuccess.
Proof.
  unfold submit_fallback. cbn.
  destruct (sessions_retrieve env sid) as [s|]; cbn;
    [|left; split; [reflexivity | discriminate]].
  destruct (payment_status s); cbn;
    try (left; split; [reflexivity | discriminate]).
  unfold supabase_insert. cbn.
  destruct (insert_error env || violates_unique _ _) eqn:E; cbn;
    [left; split; [reflexivity | discriminate]|].
  apply orb_false_iff in E. destruct E as [_ E].
  right. eexists. split; [|split; [|split; [exact E|split]]]; reflexivity.
Qed.

(** A row whose session id is already in the table is refused. *)
Lemma session_key_taken (t : list Consultation) (c r : Consultation) :
  In c t -> stripe_session_id r = stripe_session_id c ->
  violates_unique t r = true.
Proof.
  intros Hin Heq. unfold violates_unique. apply orb_true_iff. right.
  apply existsb_exists. exists c. split; [exact Hin|].
  now apply eq_filter_true.
Qed.

(** A row whose two keys are new to the table is accepted. *)
Lemma keys_free (t : list Consultation) (r : Consultation) :
  (forall x, In x t -> id x <> id r) ->
  (forall x, In x t -> stripe_session_id x <> stripe_session_id r) ->
  violates_unique t r = false.
Proof.
  intros Hid Hsid. unfold violates_unique. apply orb_false_iff.
  split; apply not_true_is_false; intros Hex; apply existsb_exists in Hex;
    destruct Hex as (x & Hx & Heq); apply eq_filter_true in Heq.
  - now apply (Hid x Hx).
  - now apply (Hsid x Hx).
Qed.

(** With the required fields there, a lookup that fails or finds no row
    hands the request to the fallback block. *)
Lemma submit_runs_fallback (env : Env) (b : SubmitBody)
    (t : list Consultation) (sid : string) :
  required_fields b -> body_session_id b = Some sid ->
  select_error env = true \/ (forall r, In r t -> stripe_session_id r <> sid) ->
  run (submit_handler env b) t
  = runState (submit_fallback env b sid)
      {| consultations := t;
         trace := [SupabaseSelect "stripe_session_id" sid] |}.
Proof.
  intros Hreq Hsid Hnone. unfold run, submit_handler, supabase_select_single.
  pass_required Hreq. rewrite Hsid. cbn.
  destruct (select_error env); [reflexivity|].
  destruct Hnone as [Hf|Habs]; [discriminate Hf|].
  now rewrite (filter_absent _ _ _ Habs).
Qed.

Lemma submit_table (env : Env) (b : SubmitBody) (t : list Consultation) :
  table_after (submit_handler env b) t = t \/
  (exists r, status r = submitted /\ violates_unique t r = false /\
             table_after (submit_handler env b) t = (t ++ [r])%list) \/
  (exists sid c,
     filter (eq_filter stripe_session_id sid) t = [c] /\ status c = paid /\
     table_after (submit_handler env b) t
     = map (fun x => if eq_filter stripe_session_id sid x
                     then submit_patch env b x else x) t).
Proof.
  unfold_run; unfold submit_handler, supabase_select_single.
  destruct (_ || _); cbn; [now left|].
  set (sid := match body_session_id b with Some s => s | None => "" end).
  assert (Hfb :
    consultations (snd (runState (submit_fallback env b sid)
      {| consultations := t;
         trace := [SupabaseSelect "stripe_session_id" sid] |})) = t \/
    exists r, status r = submitted /\ violates_unique t r = false /\
      consultations (snd (runState (submit_fallback env b sid)
        {| consultations := t;
           trace := [SupabaseSelect "stripe_session_id" sid] |}))
      = (t ++ [r])%list).
  { destruct (submit_fallback_outcome env b sid
      {| consultations := t;
         trace := [SupabaseSelect "stripe_session_id" sid] |})
      as [[H _]|(r & H1 & _ & H2 & H3 & _)];
      [left; exact H | right; exists r; repeat split; assumption]. }
  destruct (select_error env); cbn.
  - destruct Hfb as [H|H]; [left; exact H | right; left; exact H].
  - destruct (filter (eq_filter stripe_session_id sid) t)
      as [|c [|c' rest]] eqn:Hf; cbn;
      try (destruct Hfb as [H|H]; [left; exact H | right; left; exact H]).
    destruct (status c) eqn:Hst; cbn; try (now left).
    unfold supabase_update. cbn.
    destruct (update_error env); cbn; [now left|].
    right; right. exists sid, c. repeat split; assumption.
Qed.

Lemma respond_table (env : Env) (admin : bool) (b : RespondBody)
    (t : list Consultation) :
  table_after (respond_handler env admin b) t = t \/
  exists rid text,
    table_after (respond_handler env admin b) t
    = map (fun x => if eq_filter id rid x
                    then respond_patch env text x else x) t.
Proof.
  unfold_run; unfold respond_handler, requireAdmin, supabase_select_single.
  destruct admin; cbn; [|now left].
  destruct (_ || _); cbn; [now left|].
  destruct (select_error env); cbn; [now left|].
  destruct (filter _ t) as [|c [|c' rest]]; cbn; try (now left).
  unfold supabase_update. cbn.
  destruct (update_error env); cbn; [now left|].
  right. do 2 eexists.
  destruct (emails_send env _); cbn; reflexivity.
Qed.

Lemma delete_table (env : Env) (admin : bool) (pid : string)
    (t : list Consultation) :
  table_after (delete_handler env admin pid) t
  = if admin && negb (delete_error env) then filter (other_row pid) t else t.
Proof.
  unfold_run; unfold delete_handler, requireAdmin, supabase_delete.
  destruct admin; cbn; [|reflexivity].
  destruct (delete_error env); reflexivity.
Qed.

(** ** The key constraints are kept *)

Section KeyInvariant.

Variable column : Consultation -> string.

Lemma NoDup_column_snoc (t : list Consultation) (r : Consultation) :
  NoDup (map column t) ->
  existsb (eq_filter column (column r)) t = false ->
  NoDup (map column (t ++ [r])).
Proof.
  induction t as [|a t IH]; intros Hnd Hex; simpl.
  - constructor; [intros []|constructor].
  - simpl in Hnd, Hex. inversion Hnd as [|k ks Hfresh Hrest]; subst.
    apply orb_false_iff in Hex. destruct Hex as [Ha Hex].
    constructor; [|now apply IH].
    rewrite map_app, in_app_iff. intros [Hin|[Hin|[]]].
    + now apply Hfresh.
    + apply eq_filter_false in Ha. now apply Ha.
Qed.

Lemma NoDup_column_filter (p : Consultation -> bool) (t : list Consultation) :
  NoDup (map column t) -> NoDup (map column (filter p t)).
Proof.
  induction t as [|a t IH]; intros Hnd; simpl; [constructor|].
  simpl in Hnd. inversion Hnd as [|k ks Hfresh Hrest]; subst.
  destruct (p a); simpl; [|now apply IH].
  constructor; [|now apply IH].
  intros Hin. apply Hfresh. apply in_map_iff in Hin.
  destruct Hin as (x & Hx & Hin). apply filter_In in Hin.
  rewrite <- Hx. apply in_map. tauto.
Qed.

Lemma map_column_patch (g : Consultation -> Consultation)
    (sel : Consultation -> bool) (t : list Consultation) :
  (forall x, column (g x) = column x) ->
  map column (map (fun x => if sel x then g x else x) t) = map column t.
Proof.
  intros Hg. rewrite map_map. apply map_ext.
  intros x. destruct (sel x); [apply Hg | reflexivity].
Qed.

End KeyInvariant.

Lemma store_ok_snoc (t : list Consultation) (r : Consultation) :
  store_ok t -> violates_unique t r = false -> store_ok (t ++ [r]).
Proof.
  intros [Hid Hsid] Hu. unfold violates_unique in Hu.
  apply orb_false_iff in Hu. destruct Hu as [Hu1 Hu2].
  split; now apply NoDup_column_snoc.
Qed.

Lemma store_ok_patch (g : Consultation -> Consultation)
    (sel : Consultation -> bool) (t : list Consultation) :
  (forall x, id (g x) = id x) ->
  (forall x, stripe_session_id (g x) = stripe_session_id x) ->
  store_ok t -> store_ok (map (fun x => if sel x then g x else x) t).
Proof.
  intros Hid Hsid [H1 H2]. unfold store_ok.
  now rewrite !map_column_patch.
Qed.

(** Every operation of the state machine, and the admin deletion, takes a
    table that satisfies the key constraints to one that does. *)
Lemma store_ok_preserved (env : Env) (op : Operation) (t : list Consultation) :
  store_ok t -> store_ok (table_after (perform env op) t).
Proof.
  intros Hok. destruct op as [req|b|admin b]; simpl perform.
  - destruct (webhook_table env req t) as [->|(r & _ & Hu & ->)];
      [exact Hok | now apply store_ok_snoc].
  - destruct (submit_table env b t)
      as [->|[(r & _ & Hu & ->)|(sid & c0 & _ & _ & ->)]];
      [exact Hok | now apply store_ok_snoc | now apply store_ok_patch].
  - destruct (respond_table env admin b t) as [->|(rid & text & ->)];
      [exact Hok | now apply store_ok_patch].
Qed.

Lemma store_ok_after_delete (env : Env) (admin : bool) (pid : string)
    (t : list Consultation) :
  store_ok t -> store_ok (table_after (delete_handler env admin pid) t).
Proof.
  intros [H1 H2]. rewrite delete_table.
  destruct (admin && negb (delete_error env)); [|now split].
  split; now apply NoDup_column_filter.
Qed.

(** ** Service label (C2) *)

Lemma service_label_agrees (cents : Z) :
  webhook_service cents = submit_service cents /\
  webhook_service cents
  = if (1000 <=? cents)%Z then "Consultation Ressenti" else "Réponse Oui / Non".
Proof.
  unfold webhook_service, submit_service. split; [reflexivity|].
  destruct (Z.geb_spec cents 1000), (Z.leb_spec 1000 cents);
    try reflexivity; lia.
Qed.

(** C2.  The service label is a function of the amount in minor units
    alone: from 1000 up it is the premium label, below 1000 the standard
    label, and the label computed on the webhook path is the one computed
    on the submit-fallback path, for every amount. *)
Theorem service_label_by_threshold (cents : Z) :
  webhook_service cents = submit_service cents /\
  ((1000 <= cents)%Z -> webhook_service cents = "Consultation Ressenti") /\
  ((cents < 1000)%Z -> webhook_service cents = "Réponse Oui / Non").
Proof.
  destruct (service_label_agrees cents) as [Hsame Hlabel].
  split; [exact Hsame|]. rewrite Hlabel.
  destruct (Z.leb_spec 1000 cents); split; intros; (reflexivity || lia).
Qed.

Lemma service_label_by_threshold_witness :
  webhook_service 1500 = "Consultation Ressenti" /\
  webhook_service 999 = "Réponse Oui / Non" /\
  webhook_service 1000 = submit_service 1000.
Proof.
  split; [|split].
  - apply (proj1 (proj2 (service_label_by_threshold 1500))). lia.
  - apply (proj2 (proj2 (service_label_by_threshold 999))). lia.
  - apply (proj1 (service_label_by_threshold 1000)).
Defined.

(** ** Webhook (C6) *)

Lemma webhook_rejected_run (env : Env) (req : WebhookRequest)
    (t : list Consultation) :
  signature_rejected env req ->
  (exists msg, reply (webhookHandler env req) t = json 400 (JError msg)) /\
  table_after (webhookHandler env req) t = t.
Proof.
  intros [Hmissing | (sig & m & Hs & He)]; unfold_run; unfold webhookHandler.
  - rewrite Hmissing. simpl. split; [eexists; reflexivity | reflexivity].
  - rewrite Hs. destruct (truthy (Some sig)); simpl.
    + rewrite He. simpl. split; [eexists; reflexivity | reflexivity].
    + split; [eexists; reflexivity | reflexivity].
Qed.

(** C6.  Once the signature verifies the webhook answers 200 with
    [received: true], whatever the event type and also when the store
    refuses the insert: that failure leaves the table as it was and is
    logged on the console only.  A missing or invalid signature is
    answered 400 and changes nothing. *)
Theorem webhook_acknowledges_once_verified (env : Env) (req : WebhookRequest)
    (t : list Consultation) :
  (forall ev, signature_verifies env req ev ->
     reply (webhookHandler env req) t = json 200 JReceived /\
     (event_type ev <> "checkout.session.completed" ->
        table_after (webhookHandler env req) t = t) /\
     (forall r, In (SupabaseInsert r false) (trace_of (webhookHandler env req) t) ->
        table_after (webhookHandler env req) t = t /\
        In (ConsoleError "Supabase insert error")
           (trace_of (webhookHandler env req) t))) /\
  (signature_rejected env req ->
     (exists msg, reply (webhookHandler env req) t = json 400 (JError msg)) /\
     table_after (webhookHandler env req) t = t).
Proof.
  split; [|apply webhook_rejected_run].
  intros ev (sig & Hs & Ht & He). unfold_run; unfold webhookHandler.
  rewrite Hs, Ht. cbn [negb]. rewrite He.
  destruct (String.eqb_spec (event_type ev) "checkout.session.completed")
    as [Hty|Hty].
  - unfold supabase_insert. cbn.
    destruct (insert_error env || violates_unique t _); cbn.
    + repeat split; try reflexivity. right; now left.
    + split; [reflexivity|]. split; [intros Hne; now elim Hne|].
      intros r Hin. trace_cases Hin.
  - cbn. split; [reflexivity|]. split; [reflexivity|].
    intros r Hin. destruct Hin.
Qed.

Lemma webhook_acknowledges_once_verified_witness :
  reply (webhookHandler (sample_env true false)
           (sample_webhook (Some "t=1,v1=ok"))) [] = json 200 JReceived /\
  table_after (webhookHandler (sample_env true false)
                 (sample_webhook None)) [] = [].
Proof.
  split.
  - apply (proj1 (webhook_acknowledges_once_verified (sample_env true false)
                    (sample_webhook (Some "t=1,v1=ok")) []) sample_event).
    exists "t=1,v1=ok". repeat split; reflexivity.
  - apply (proj2 (webhook_acknowledges_once_verified (sample_env true false)
                    (sample_webhook None) [])).
    left. reflexivity.
Defined.

(** ** Form gate (C7) *)

(** C7.  GET /form: without a session id the visitor is redirected; a
    local row that has left [paid] gets the already-submitted view instead
    of the form; without a local row the provider is asked, a failed or
    unpaid verification redirects and a verified payment is served the
    form.  The answer is always one of those three pages and the table is
    never written. *)
Theorem form_gate_fails_closed (env : Env) (q : option string)
    (t : list Consultation) :
  (reply (form_handler env q) t = redirect "/#services" \/
   reply (form_handler env q) t = sendFile "already-submitted.html" \/
   reply (form_handler env q) t = sendFile "form.html") /\
  table_after (form_handler env q) t = t /\
  (truthy q = false -> reply (form_handler env q) t = redirect "/#services") /\
  (forall sid c,
     q = Some sid -> truthy q = true -> select_error env = false ->
     store_ok t -> In c t -> stripe_session_id c = sid -> status c <> paid ->
     reply (form_handler env q) t = sendFile "already-submitted.html") /\
  (forall sid,
     q = Some sid -> truthy q = true ->
     (forall r, In r t -> stripe_session_id r <> sid) ->
     In (StripeRetrieve sid) (trace_of (form_handler env q) t) /\
     reply (form_handler env q) t =
       if verified_paid env sid then sendFile "form.html"
       else redirect "/#services").
Proof.
  unfold_run; unfold form_handler, supabase_select_single, verified_paid.
  split; [|split; [|split; [|split]]].
  - destruct (truthy q); cbn; [|now left].
    destruct (select_error env); cbn.
    + destruct (sessions_retrieve env _) as [s|]; cbn; [|now left].
      destruct (payment_status s); cbn; auto.
    + destruct (filter _ t) as [|d [|d' rest]]; cbn;
        try (destruct (sessions_retrieve env _) as [s|]; cbn; [|now left];
             destruct (payment_status s); cbn; now auto).
      destruct (status d); cbn; auto.
  - destruct (truthy q); cbn; [|reflexivity].
    destruct (select_error env); cbn.
    + destruct (sessions_retrieve env _) as [s|]; cbn; [|reflexivity].
      destruct (payment_status s); reflexivity.
    + destruct (filter _ t) as [|d [|d' rest]]; cbn;
        try (destruct (sessions_retrieve env _) as [s|]; cbn; [|reflexivity];
             destruct (payment_status s); reflexivity).
      destruct (status d); reflexivity.
  - intros Hq. rewrite Hq. reflexivity.
  - intros sid c -> Hq Hsel Hok Hin <- Hst. rewrite Hq. cbn. rewrite Hsel.
    rewrite (session_lookup_found _ _ Hok Hin). cbn.
    destruct (status c); try reflexivity. now elim Hst.
  - intros sid -> Hq Habs. rewrite Hq. cbn.
    rewrite (filter_absent _ _ _ Habs).
    destruct (select_error env); cbn;
      (destruct (sessions_retrieve env sid) as [s|]; cbn;
       [destruct (payment_status s); cbn|];
       (split; [right; now left | reflexivity])).
Qed.

Lemma form_gate_fails_closed_witness :
  reply (form_handler (sample_env false false) (Some "cs_123"))
        [sample_row "a1" "cs_123" submitted 15]
  = sendFile "already-submitted.html" /\
  reply (form_handler (sample_env false false) (Some "cs_123")) []
  = sendFile "form.html" /\
  reply (form_handler (sample_env false false) (Some "cs_404")) []
  = redirect "/#services" /\
  reply (form_handler (sample_env false false) None) []
  = redirect "/#services".
Proof.
  split; [|split; [|split]].
  - apply (proj1 (proj2 (proj2 (proj2
      (form_gate_fails_closed (sample_env false false) (Some "cs_123")
         [sample_row "a1" "cs_123" submitted 15]))))
      "cs_123" (sample_row "a1" "cs_123" submitted 15));
      try reflexivity; [table_ok | now left | discriminate].
  - apply (proj2 (proj2 (proj2 (proj2
      (form_gate_fails_closed (sample_env false false) (Some "cs_123") []))))
      "cs_123"); try reflexivity. intros r [].
  - apply (proj2 (proj2 (proj2 (proj2
      (form_gate_fails_closed (sample_env false false) (Some "cs_404") []))))
      "cs_404"); try reflexivity. intros r [].
  - apply (proj1 (proj2 (proj2
      (form_gate_fails_closed (sample_env false false) None [])))).
    reflexivity.
Defined.

(** ** Submit (C4, C5, C10) *)

(** C4.  A submit whose session id matches a row that has left [paid] is
    always refused: the answer is never a success and the table is left as
    it was.  When the store lookup returns the row the answer is 400 with
    a localized message, the duplicate-submission one as soon as the
    required fields are there. *)
Theorem duplicate_submission_rejected (env : Env) (b : SubmitBody)
    (t : list Consultation) (sid : string) (c : Consultation) :
  body_session_id b = Some sid ->
  store_ok t -> In c t -> stripe_session_id c = sid -> status c <> paid ->
  table_after (submit_handler env b) t = t /\
  reply (submit_handler env b) t <> json 200 JSuccess /\
  (select_error env = false ->
     (reply (submit_handler env b) t
        = json 400 (JError "Champs obligatoires manquants.") \/
      reply (submit_handler env b) t
        = json 400 (JError
            "Vous avez déjà soumis votre question pour cette consultation.")) /\
     (required_fields b ->
      reply (submit_handler env b) t
        = json 400 (JError
            "Vous avez déjà soumis votre question pour cette consultation."))).
Proof.
  intros Hsid Hok Hin <- Hst.
  destruct (truthy (body_session_id b)) eqn:H1;
    [destruct (truthy (body_name b)) eqn:H2;
     [destruct (truthy (body_email b)) eqn:H3;
      [destruct (truthy (body_message b)) eqn:H4|]|]|].
  2-5: unfold_run; unfold submit_handler; rewrite ?H1, ?H2, ?H3, ?H4; cbn.
  2-5: split; [reflexivity|]; split; [discriminate|]; intros _.
  2-5: split; [now left|]; intros (R1 & R2 & R3 & R4); congruence.
  destruct (select_error env) eqn:Hsel.
  - (* the lookup fails: the fallback runs and the session key refuses
       the insert *)
    unfold_obs.
    rewrite (submit_runs_fallback env b t (stripe_session_id c))
      by (repeat split; auto).
    destruct (submit_fallback_outcome env b (stripe_session_id c)
      {| consultations := t;
         trace := [SupabaseSelect "stripe_session_id" (stripe_session_id c)] |})
      as [[Ht Hr]|(r & _ & Hs & Hu & _)].
    + split; [exact Ht|]. split; [exact Hr|]. intros Hf. discriminate Hf.
    + cbn in Hu. rewrite (session_key_taken t c r Hin Hs) in Hu.
      discriminate Hu.
  - unfold_run; unfold submit_handler, supabase_select_single.
    rewrite H1, H2, H3, H4, Hsid. cbn. rewrite Hsel.
    rewrite (session_lookup_found _ _ Hok Hin). cbn.
    destruct (status c); cbn; try (now elim Hst);
      (split; [reflexivity|]; split; [discriminate|]; intros _;
       split; [now right | reflexivity]).
Qed.

Lemma duplicate_submission_rejected_witness :
  reply (submit_handler (sample_env false false) (sample_body "cs_123"))
        [sample_row "a1" "cs_123" answered 15]
  = json 400 (JError
      "Vous avez déjà soumis votre question pour cette consultation.") /\
  table_after (submit_handler (sample_env false false) (sample_body "cs_123"))
        [sample_row "a1" "cs_123" answered 15]
  = [sample_row "a1" "cs_123" answered 15].
Proof.
  assert (Hok : store_ok [sample_row "a1" "cs_123" answered 15]) by table_ok.
  destruct (duplicate_submission_rejected (sample_env false false)
              (sample_body "cs_123") [sample_row "a1" "cs_123" answered 15]
              "cs_123" (sample_row "a1" "cs_123" answered 15)
              eq_refl Hok (or_introl eq_refl) eq_refl)
    as (Hsame & _ & Hmsg).
  - discriminate.
  - split; [|exact Hsame].
    apply (proj2 (Hmsg eq_refl)). repeat split.
Defined.

(** C5.  A submit (required fields present) for a session without a local
    row asks the provider, and whatever happens next the table is either
    unchanged or one row longer, that row being [submitted].  A lookup
    that throws or a session not paid is answered 403 and no row is
    created.  For a paid session, when the store accepts the insert,
    exactly one row is written, already [submitted], carrying name, email,
    message and submission time, the provider's amount divided by 100 and
    the label of the webhook path. *)
Theorem submit_fallback_reverifies (env : Env) (b : SubmitBody)
    (t : list Consultation) (sid : string) :
  required_fields b -> body_session_id b = Some sid ->
  (forall r, In r t -> stripe_session_id r <> sid) ->
  In (StripeRetrieve sid) (trace_of (submit_handler env b) t) /\
  (table_after (submit_handler env b) t = t \/
   exists row, status row = submitted /\ stripe_session_id row = sid /\
               table_after (submit_handler env b) t = (t ++ [row])%list) /\
  (verified_paid env sid = false ->
     (exists msg, reply (submit_handler env b) t = json 403 (JError msg)) /\
     table_after (submit_handler env b) t = t) /\
  (forall session,
     sessions_retrieve env sid = Some session ->
     payment_status session = payment_paid ->
     insert_error env = false ->
     (forall r, In r t -> id r <> uuid_generate_v4 env) ->
     exists row,
       table_after (submit_handler env b) t = (t ++ [row])%list /\
       reply (submit_handler env b) t = json 200 JSuccess /\
       trace_of (submit_handler env b) t
         = [SupabaseSelect "stripe_session_id" sid; StripeRetrieve sid;
            SupabaseInsert row true] /\
       status row = submitted /\
       stripe_session_id row = sid /\
       name row = body_name b /\ truthy (name row) = true /\
       email row = body_email b /\ truthy (email row) = true /\
       message row = body_message b /\ truthy (message row) = true /\
       submitted_at row = Some (toISOString env) /\
       (amount row == inject_Z (nullish0 (amount_total session)) / 100)%Q /\
       service row = webhook_service (nullish0 (amount_total session))).
Proof.
  intros Hreq Hsid Habs. unfold_obs.
  rewrite (submit_runs_fallback env b t sid Hreq Hsid (or_intror Habs)).
  split; [|split; [|split]].
  - (* the provider is asked before anything else *)
    unfold submit_fallback. cbn.
    destruct (sessions_retrieve env sid) as [s|]; cbn; [|right; now left].
    destruct (payment_status s); cbn; try (right; now left).
    unfold supabase_insert. cbn.
    destruct (insert_error env || violates_unique t _); cbn; right; now left.
  - (* at most one new row, submitted *)
    destruct (submit_fallback_outcome env b sid
      {| consultations := t;
         trace := [SupabaseSelect "stripe_session_id" sid] |})
      as [[Ht _]|(r & Hst & Hs & _ & Ht & _)]; [now left|].
    right. exists r. split; [exact Hst|]. split; [exact Hs | exact Ht].
  - (* not verified: 403 *)
    unfold submit_fallback, verified_paid. cbn.
    destruct (sessions_retrieve env sid) as [s|]; cbn.
    + destruct (payment_status s); cbn; intros Hv; try discriminate Hv;
        (split; [eexists; reflexivity | reflexivity]).
    + intros _. split; [eexists; reflexivity | reflexivity].
  - (* verified and accepted by the store *)
    intros session Hret Hpaid Hins Hfresh.
    unfold submit_fallback. cbn. rewrite Hret. cbn. rewrite Hpaid.
    unfold supabase_insert. cbn. rewrite Hins. cbn [orb].
    rewrite keys_free by assumption. cbn.
    eexists. split; [reflexivity|].
    destruct Hreq as (F1 & F2 & F3 & F4). cbn.
    rewrite (proj1 (service_label_agrees (nullish0 (amount_total session)))).
    repeat split; try assumption; reflexivity.
Qed.

Lemma submit_fallback_reverifies_witness :
  (exists row,
     table_after (submit_handler (sample_env false false) (sample_body "cs_123"))
       [sample_row "a1" "cs_9" answered 5]
     = [sample_row "a1" "cs_9" answered 5; row] /\
     status row = submitted /\ (amount row == 15)%Q /\
     service row = "Consultation Ressenti") /\
  table_after (submit_handler (sample_env false false) (sample_body "cs_404"))
    [sample_row "a1" "cs_9" answered 5]
  = [sample_row "a1" "cs_9" answered 5].
Proof.
  split.
  - destruct (submit_fallback_reverifies (sample_env false false)
                (sample_body "cs_123") [sample_row "a1" "cs_9" answered 5]
                "cs_123") as (_ & _ & _ & Hpaid).
    + repeat split.
    + reflexivity.
    + intros r [<-|[]]. discriminate.
    + destruct (Hpaid sample_session eq_refl eq_refl eq_refl)
        as (row & Ht & _ & _ & Hst & _ & _ & _ & _ & _ & _ & _ & _ & Ha & Hs).
      * intros r [<-|[]]. discriminate.
      * exists row. split; [exact Ht|]. split; [exact Hst|].
        split; [|exact Hs].
        apply (Qeq_trans _ _ _ Ha). reflexivity.
  - destruct (submit_fallback_reverifies (sample_env false false)
                (sample_body "cs_404") [sample_row "a1" "cs_9" answered 5]
                "cs_404") as (_ & _ & Hunpaid & _).
    + repeat split.
    + reflexivity.
    + intros r [<-|[]]. discriminate.
    + apply Hunpaid. reflexivity.
Defined.

(** C10.  A submit that reaches the update of an existing [paid] row
    leaves the table the same length and, position by position, keeps id,
    session id, service, amount, customer email, response, answer time and
    creation time of every row; a row other than the matched one is kept
    whole, and the matched one takes the submitted status and the form
    fields when the store accepts the update. *)
Theorem submit_update_frame (env : Env) (b : SubmitBody)
    (t : list Consultation) (sid : string) (c : Consultation) :
  required_fields b -> body_session_id b = Some sid ->
  select_error env = false ->
  store_ok t -> In c t -> stripe_session_id c = sid -> status c = paid ->
  length (table_after (submit_handler env b) t) = length t /\
  forall i x, nth_error t i = Some x ->
    exists x',
      nth_error (table_after (submit_handler env b) t) i = Some x' /\
      id x' = id x /\ stripe_session_id x' = stripe_session_id x /\
      service x' = service x /\ amount x' = amount x /\
      customer_email x' = customer_email x /\ response x' = response x /\
      answered_at x' = answered_at x /\ created_at x' = created_at x /\
      (x <> c -> x' = x) /\
      (x = c -> update_error env = false ->
         status x' = submitted /\ name x' = body_name b /\
         email x' = body_email b /\
         birthdate x' = or_else (body_birthdate b) None /\
         person_concerned x' = or_else (body_person_concerned b) None /\
         message x' = body_message b /\
         submitted_at x' = Some (toISOString env)).
Proof.
  intros Hreq Hsid Hsel Hok Hin <- Hst.
  unfold_run; unfold submit_handler, supabase_select_single.
  pass_required Hreq. rewrite Hsid. cbn. rewrite Hsel.
  rewrite (session_lookup_found _ _ Hok Hin). cbn. rewrite Hst.
  unfold supabase_update. cbn.
  destruct (update_error env); cbn.
  - split; [reflexivity|]. intros i x Hx. exists x.
    split; [exact Hx|]. repeat (split; [reflexivity|]).
    intros _ Hfalse. discriminate Hfalse.
  - split; [apply length_map|]. intros i x Hx.
    eexists. split; [apply map_patch_nth; exact Hx|].
    destruct (eq_filter stripe_session_id (stripe_session_id c) x) eqn:Hf.
    + apply eq_filter_true in Hf.
      assert (Hxc : x = c).
      { apply (unique_key_row stripe_session_id t);
          [apply Hok | now apply (nth_error_In t i) | exact Hin | exact Hf]. }
      subst x. cbn. repeat split; congruence.
    + apply eq_filter_false in Hf.
      assert (Hne : x <> c) by (intros ->; now apply Hf).
      repeat split; congruence.
Qed.

Lemma submit_update_frame_witness :
  exists x',
    nth_error (table_after
                 (submit_handler (sample_env false false) (sample_body "cs_123"))
                 [sample_row "a0" "cs_9" answered 5;
                  sample_row "a1" "cs_123" paid 15]) 1 = Some x' /\
    id x' = "a1" /\ amount x' = inject_Z 15 /\ status x' = submitted.
Proof.
  destruct (submit_update_frame (sample_env false false) (sample_body "cs_123")
              [sample_row "a0" "cs_9" answered 5;
               sample_row "a1" "cs_123" paid 15]
              "cs_123" (sample_row "a1" "cs_123" paid 15)) as [_ Hrows];
    try reflexivity.
  - repeat split.
  - table_ok.
  - right; now left.
  - destruct (Hrows 1%nat (sample_row "a1" "cs_123" paid 15) eq_refl)
      as (x' & Hn & Hid & _ & _ & Ham & _ & _ & _ & _ & _ & Hnew).
    exists x'. split; [exact Hn|]. split; [exact Hid|]. split; [exact Ham|].
    apply (Hnew eq_refl eq_refl).
Defined.

(** ** Respond (C3) *)

(** What holds of a respond on an existing row (admin session, both
    fields present, the lookup returning the row): the update to
    [answered] with the response text and the answer time is written
    before the one email attempt; whatever the mailer does the written
    table stays; the answer is 200 with [emailSent] telling whether the
    send call returned, so a send that throws is answered [emailSent]
    false.  When the update itself fails the answer is 500, the table is
    untouched and no email is attempted. *)
Lemma respond_commits_before_email (env : Env) (b : RespondBody)
    (t : list Consultation) (rid text : string) (c : Consultation) :
  body_id b = Some rid -> body_response b = Some text ->
  truthy (Some rid) = true -> truthy (Some text) = true ->
  select_error env = false -> store_ok t -> In c t -> id c = rid ->
  (update_error env = true ->
     reply (respond_handler env true b) t
       = json 500 (JError "Erreur lors de la mise à jour.") /\
     table_after (respond_handler env true b) t = t /\
     forall m o, ~ In (ResendSend m o) (trace_of (respond_handler env true b) t)) /\
  (update_error env = false ->
     (exists last,
        trace_of (respond_handler env true b) t
        = [SupabaseSelect "id" rid; SupabaseUpdate "id" rid true;
           ResendSend (respond_mail env c text)
                      (emails_send env (respond_mail env c text));
           last]) /\
     table_after (respond_handler env true b) t
       = map (fun x => if eq_filter id rid x then respond_patch env text x else x) t /\
     (exists c', In c' (table_after (respond_handler env true b) t) /\
                 id c' = rid /\ status c' = answered /\
                 response c' = Some text /\
                 answered_at c' = Some (toISOString env)) /\
     (exists msg, reply (respond_handler env true b) t
                  = json 200 (JResponded true
                      (send_returned env (respond_mail env c text)) msg))).
Proof.
  intros Hid Hresp Tid Ttext Hsel Hok Hin <-.
  unfold_run; unfold respond_handler, requireAdmin, supabase_select_single.
  rewrite Hid, Hresp, Tid, Ttext. cbn. rewrite Hsel.
  rewrite (id_lookup_found _ _ Hok Hin). cbn.
  unfold supabase_update, send_returned. cbn.
  split; intros Hupd; rewrite Hupd; cbn.
  - split; [reflexivity|]. split; [reflexivity|].
    intros m o Hm. trace_cases Hm.
  - assert (Hpatched : In (respond_patch env text c)
              (map (fun x => if eq_filter id (id c) x
                             then respond_patch env text x else x) t)).
    { apply in_map_iff. exists c. split; [|exact Hin].
      assert (Hc : eq_filter id (id c) c = true) by now apply eq_filter_true.
      now rewrite Hc. }
    destruct (emails_send env (respond_mail env c text)) as [m|u]; cbn.
    + split; [eexists; reflexivity|]. split; [reflexivity|].
      split; [|eexists; reflexivity].
      exists (respond_patch env text c). repeat split. exact Hpatched.
    + split; [eexists; reflexivity|]. split; [reflexivity|].
      split; [|eexists; reflexivity].
      exists (respond_patch env text c). repeat split. exact Hpatched.
Qed.

Lemma respond_commits_before_email_witness :
  (exists msg,
     reply (respond_handler (sample_env false true) true (sample_answer "a1"))
           [sample_row "a1" "cs_123" submitted 15]
     = json 200 (JResponded true false msg)) /\
  (exists c',
     In c' (table_after
              (respond_handler (sample_env false true) true (sample_answer "a1"))
              [sample_row "a1" "cs_123" submitted 15]) /\
     status c' = answered /\ response c' = Some "Voici ma guidance") /\
  table_after (respond_handler (sample_env true true) true (sample_answer "a1"))
              [sample_row "a1" "cs_123" submitted 15]
  = [sample_row "a1" "cs_123" submitted 15].
Proof.
  assert (Hok : store_ok [sample_row "a1" "cs_123" submitted 15]) by table_ok.
  destruct (respond_commits_before_email (sample_env false true)
              (sample_answer "a1") [sample_row "a1" "cs_123" submitted 15]
              "a1" "Voici ma guidance" (sample_row "a1" "cs_123" submitted 15)
              eq_refl eq_refl eq_refl eq_refl eq_refl Hok
              (or_introl eq_refl) eq_refl) as [_ Hsaved].
  destruct (respond_commits_before_email (sample_env true true)
              (sample_answer "a1") [sample_row "a1" "cs_123" submitted 15]
              "a1" "Voici ma guidance" (sample_row "a1" "cs_123" submitted 15)
              eq_refl eq_refl eq_refl eq_refl eq_refl Hok
              (or_introl eq_refl) eq_refl) as [Hfailed _].
  destruct (Hsaved eq_refl) as (_ & _ & (c' & Hc' & _ & Hst & Hre & _) & Hmsg).
  destruct (Hfailed eq_refl) as (_ & Hsame & _).
  split; [exact Hmsg|]. split; [|exact Hsame].
  exists c'. split; [exact Hc'|]. split; [exact Hst | exact Hre].
Defined.

(** C3, where the code departs from it.  The handler sets [emailSent]
    as soon as [resend.emails.send] returns and never looks at what it
    resolved to: with a mailer that answers but refuses the mail (the call
    resolves with [error] set), the response is saved and the admin is
    told that the email was sent. *)
Lemma respond_reports_refused_mail_as_sent :
  emails_send sample_env_mail_refused
    (respond_mail sample_env_mail_refused
       (sample_row "a1" "cs_123" submitted 15) "Voici ma guidance")
  = inr (send_error "API key is invalid") /\
  email_delivered sample_env_mail_refused
    (respond_mail sample_env_mail_refused
       (sample_row "a1" "cs_123" submitted 15) "Voici ma guidance") = false /\
  reply (respond_handler sample_env_mail_refused true (sample_answer "a1"))
        [sample_row "a1" "cs_123" submitted 15]
  = json 200 (JResponded true true "Réponse enregistrée et email envoyé !") /\
  map status
    (table_after (respond_handler sample_env_mail_refused true
                    (sample_answer "a1"))
       [sample_row "a1" "cs_123" submitted 15]) = [answered].
Proof. repeat split. Qed.

(** The same for every request: whenever the send call returns, with
    [data] or with [error], the answer says [emailSent] true. *)
Lemma respond_says_sent_whenever_send_returns (env : Env) (b : RespondBody)
    (t : list Consultation) (rid text : string) (c : Consultation)
    (resolved : SendResult) :
  body_id b = Some rid -> body_response b = Some text ->
  truthy (Some rid) = true -> truthy (Some text) = true ->
  select_error env = false -> update_error env = false ->
  filter (eq_filter id rid) t = [c] ->
  emails_send env (respond_mail env c text) = inr resolved ->
  reply (respond_handler env true b) t
  = json 200 (JResponded true true "Réponse enregistrée et email envoyé !").
Proof.
  intros Hid Hresp Tid Ttext Hsel Hupd Hf Hsend.
  unfold_run; unfold respond_handler, requireAdmin, supabase_select_single.
  rewrite Hid, Hresp, Tid, Ttext. cbn. rewrite Hsel, Hf. cbn.
  unfold supabase_update. cbn. rewrite Hupd. cbn. rewrite Hsend. reflexivity.
Qed.

(** ** Status discipline (C1) *)

Lemma rank_submit_patch (env : Env) (b : SubmitBody) (c : Consultation) :
  status c = paid ->
  (status_rank (status c) <= status_rank (status (submit_patch env b c)))%nat.
Proof. intros ->. simpl. lia. Qed.

Lemma rank_respond_patch (env : Env) (text : string) (c : Consultation) :
  (status_rank (status c) <= status_rank (status (respond_patch env text c)))%nat.
Proof. destruct (status c) eqn:Hs; simpl; lia. Qed.

(** C1, as the code has it.  Across webhook, submit and respond no status
    ever moves backwards: each row of the table is found again at its
    position, under its id, with a status of at least the same rank.  The
    webhook leaves every existing row as it is, submit changes a row only
    from [paid] to [submitted], and respond sets the addressed row to
    [answered] from whatever status it has. *)
Theorem status_never_regresses (env : Env) (op : Operation)
    (t : list Consultation) (i : nat) (c : Consultation) :
  nth_error t i = Some c ->
  exists c',
    nth_error (table_after (perform env op) t) i = Some c' /\
    id c' = id c /\
    (status_rank (status c) <= status_rank (status c'))%nat /\
    match op with
    | OpWebhook _ => c' = c
    | OpSubmit _ => c' = c \/ (status c = paid /\ status c' = submitted)
    | OpRespond _ _ => c' = c \/ status c' = answered
    end.
Proof.
  intros Hc.
  assert (Happ : forall r, nth_error (t ++ [r]) i = Some c).
  { intros r. rewrite nth_error_app1; [exact Hc|].
    apply nth_error_Some. now rewrite Hc. }
  destruct op as [req|b|admin b]; simpl perform.
  - destruct (webhook_table env req t) as [->|(r & _ & _ & ->)];
      exists c; repeat split; auto.
  - destruct (submit_table env b t)
      as [->|[(r & _ & _ & ->)|(sid & c0 & Hf & Hpaid & ->)]].
    + exists c. repeat split; auto.
    + exists c. repeat split; auto.
    + eexists. split; [apply map_patch_nth; exact Hc|].
      destruct (eq_filter stripe_session_id sid c) eqn:Hm.
      * assert (Hcc : c = c0).
        { assert (Hin : In c (filter (eq_filter stripe_session_id sid) t)).
          { apply filter_In. split; [now apply (nth_error_In t i)|exact Hm]. }
          rewrite Hf in Hin. destruct Hin as [Hin|[]]. now symmetry. }
        subst c0. split; [reflexivity|].
        split; [now apply rank_submit_patch|]. right. now split.
      * repeat split; auto.
  - destruct (respond_table env admin b t) as [->|(rid & text & ->)].
    + exists c. repeat split; auto.
    + eexists. split; [apply map_patch_nth; exact Hc|].
      destruct (eq_filter id rid c).
      * split; [reflexivity|]. split; [apply rank_respond_patch|]. now right.
      * repeat split; auto.
Qed.

Lemma status_never_regresses_witness :
  exists c',
    nth_error (table_after
                 (perform (sample_env false false)
                    (OpSubmit (sample_body "cs_123")))
                 [sample_row "a1" "cs_123" paid 15]) 0 = Some c' /\
    id c' = "a1" /\
    (c' = sample_row "a1" "cs_123" paid 15 \/
     status (sample_row "a1" "cs_123" paid 15) = paid /\ status c' = submitted).
Proof.
  destruct (status_never_regresses (sample_env false false)
              (OpSubmit (sample_body "cs_123"))
              [sample_row "a1" "cs_123" paid 15] 0
              (sample_row "a1" "cs_123" paid 15) eq_refl)
    as (c' & Hn & Hid & _ & Hstep).
  exists c'. split; [exact Hn|]. split; [exact Hid | exact Hstep].
Defined.

(** C1, as worded, fails: responding to a row that is still [paid] makes
    it [answered] without it ever being [submitted]. *)
Lemma respond_answers_a_paid_row :
  store_ok [sample_row "a1" "cs_123" paid 15] /\
  (exists c',
     table_after (perform (sample_env false false)
                    (OpRespond true (sample_answer "a1")))
                 [sample_row "a1" "cs_123" paid 15] = [c'] /\
     id c' = "a1" /\ status c' = answered) /\
  ~ forward_step paid answered /\
  ~ status_only_steps_forward.
Proof.
  assert (Hok : store_ok [sample_row "a1" "cs_123" paid 15]) by table_ok.
  assert (Hno : ~ forward_step paid answered).
  { intros [H|[[_ H]|[H _]]]; discriminate H. }
  split; [exact Hok|]. split; [|split; [exact Hno|]].
  - eexists. split; [reflexivity|]. split; reflexivity.
  - intros Hclaim. apply Hno.
    apply (Hclaim (sample_env false false)
             (OpRespond true (sample_answer "a1"))
             [sample_row "a1" "cs_123" paid 15]
             (sample_row "a1" "cs_123" paid 15)
             (respond_patch (sample_env false false) "Voici ma guidance"
                (sample_row "a1" "cs_123" paid 15)) Hok).
    + now left.
    + now left.
    + reflexivity.
Qed.

(** ** Stats (C8) *)

Lemma in_submitted_answered_aggregated (c : Consultation) :
  in_submitted_answered c = aggregated (status c).
Proof. unfold in_submitted_answered. now destruct (status c). Qed.

Lemma count_aggregated_split (t : list Consultation) :
  count_where aggregated t
  = count_where (Status_eqb submitted) t + count_where (Status_eqb answered) t.
Proof.
  induction t as [|c t IH]; [reflexivity|].
  simpl. rewrite IH. destruct (status c); simpl; lia.
Qed.

Lemma length_selected (t : list Consultation) :
  length (filter in_submitted_answered t) = count_where aggregated t.
Proof.
  induction t as [|c t IH]; [reflexivity|].
  simpl. rewrite in_submitted_answered_aggregated.
  destruct (aggregated (status c)); simpl; now rewrite IH.
Qed.

Lemma length_selected_with (s : Status) (t : list Consultation) :
  aggregated s = true ->
  length (filter (fun c => Status_eqb (status c) s)
                 (filter in_submitted_answered t))
  = count_where (Status_eqb s) t.
Proof.
  intros Hs. induction t as [|c t IH]; [reflexivity|].
  simpl. rewrite in_submitted_answered_aggregated.
  destruct (status c) eqn:Hc, s; try discriminate Hs; simpl;
    rewrite ?Hc; simpl; (exact IH || (f_equal; exact IH)).
Qed.



Lemma stats_reply (env : Env) (t : list Consultation) :
  select_error env = false ->
  reply (stats_handler env true) t
  = let all := filter in_submitted_answered t in
    json 200
      (JStats (length all)
         (length (filter (fun c => Status_eqb (status c) submitted) all))
         (length (filter (fun c => Status_eqb (status c) answered) all))
         (fold_left
            (fun sum c => PrimFloat.add sum (number_or_0 (to_number (amount c))))
            all PrimFloat.zero)).
Proof.
  intros Hsel.
  unfold_run; unfold stats_handler, requireAdmin, supabase_select_in.
  cbn. rewrite Hsel. reflexivity.
Qed.



(** The revenue is a sum of doubles, not of decimals: two rows of 1.10
    and 2.20 give 3.3000000000000003, which is not the double of 3.30. *)
Example revenue_is_added_in_doubles :
  add_amounts_where aggregated PrimFloat.zero
    [ {| id := "a1"; stripe_session_id := "cs_1";
         service := "Réponse Oui / Non"; amount := 110 # 100;
         status := submitted; customer_email := None;
         name := Some "Lina"; email := Some "lina@example.com";
         birthdate := None; person_concerned := None;
         message := Some "Oui ou non ?"; response := None;
         submitted_at := Some "2026-01-01T09:30:00.000Z";
         answered_at := None; created_at := "2026-01-01T09:00:00Z" |};
      {| id := "a2"; stripe_session_id := "cs_2";
         service := "Réponse Oui / Non"; amount := 220 # 100;
         status := submitted; customer_email := None;
         name := Some "Noé"; email := Some "noe@example.com";
         birthdate := None; person_concerned := None;
         message := Some "Oui ou non ?"; response := None;
         submitted_at := Some "2026-01-01T09:40:00.000Z";
         answered_at := None; created_at := "2026-01-01T09:10:00Z" |} ]
  = PrimFloat.add (to_number (110 # 100)) (to_number (220 # 100)) /\
  PrimFloat.add (to_number (110 # 100)) (to_number (220 # 100))
  <> to_number (330 # 100).
Proof.
  split; [reflexivity|]. intros H. vm_compute in H. discriminate H.
Qed.

(** ** Delete (C9) *)

Section OtherRows.

Variable pid : string.

Lemma other_row_true (c : Consultation) :
  other_row pid c = true <-> id c <> pid.
Proof.
  unfold other_row. rewrite negb_true_iff. apply eq_filter_false.
Qed.

Lemma filter_other_twice (t : list Consultation) :
  filter (other_row pid) (filter (other_row pid) t)
  = filter (other_row pid) t.
Proof.
  induction t as [|c t IH]; [reflexivity|].
  simpl. destruct (other_row pid c) eqn:Hc; simpl; [|exact IH].
  now rewrite Hc, IH.
Qed.

Lemma filter_other_all (t : list Consultation) :
  (forall r, In r t -> id r <> pid) -> filter (other_row pid) t = t.
Proof.
  induction t as [|c t IH]; intros Hall; [reflexivity|].
  simpl. assert (Hc : other_row pid c = true)
    by (apply other_row_true, Hall; now left).
  rewrite Hc. f_equal. apply IH. intros r Hr. apply Hall. now right.
Qed.

End OtherRows.

(** C9.  A delete request always gets one of three answers (401, 500 or
    200 success) and never touches a row whose id differs from the one
    given: those rows are the same, in the same order, before and after.
    When no row has the given id the table is unchanged, and the answer is
    200 success for an admin session on a store that reports no error. *)
Theorem delete_keeps_other_rows (env : Env) (admin : bool) (pid : string)
    (t : list Consultation) :
  (reply (delete_handler env admin pid) t = json 401 (JError "Non autorisé.") \/
   reply (delete_handler env admin pid) t
     = json 500 (JError "Erreur lors de la suppression.") \/
   reply (delete_handler env admin pid) t = json 200 JSuccess) /\
  filter (other_row pid) (table_after (delete_handler env admin pid) t)
    = filter (other_row pid) t /\
  (forall r, id r <> pid ->
     (In r (table_after (delete_handler env admin pid) t) <-> In r t)) /\
  ((forall r, In r t -> id r <> pid) ->
     table_after (delete_handler env admin pid) t = t /\
     (admin = true -> delete_error env = false ->
      reply (delete_handler env admin pid) t = json 200 JSuccess)).
Proof.
  split; [|split; [|split]].
  - unfold_run; unfold delete_handler, requireAdmin, supabase_delete.
    destruct admin; cbn; [|now left].
    destruct (delete_error env); cbn; auto.
  - rewrite delete_table. destruct (admin && negb (delete_error env));
      [apply filter_other_twice | reflexivity].
  - intros r Hr. rewrite delete_table.
    destruct (admin && negb (delete_error env)); [|reflexivity].
    rewrite filter_In. apply other_row_true in Hr. tauto.
  - intros Habsent. split.
    + rewrite delete_table. destruct (admin && negb (delete_error env));
        [now apply filter_other_all | reflexivity].
    + intros -> Hdel.
      unfold_run; unfold delete_handler, requireAdmin, supabase_delete.
      cbn. rewrite Hdel. reflexivity.
Qed.

Lemma delete_keeps_other_rows_witness :
  table_after (delete_handler (sample_env false false) true "zz")
              [sample_row "a1" "cs_1" submitted 15]
  = [sample_row "a1" "cs_1" submitted 15] /\
  reply (delete_handler (sample_env false false) true "zz")
        [sample_row "a1" "cs_1" submitted 15]
  = json 200 JSuccess /\
  In (sample_row "a1" "cs_1" submitted 15)
     (table_after (delete_handler (sample_env false false) true "a2")
        [sample_row "a1" "cs_1" submitted 15;
         sample_row "a2" "cs_2" answered 5]).
Proof.
  destruct (delete_keeps_other_rows (sample_env false false) true "zz"
              [sample_row "a1" "cs_1" submitted 15]) as (_ & _ & _ & Hnone).
  destruct Hnone as [Hsame Hreply].
  { intros r [<-|[]]. discriminate. }
  split; [exact Hsame|]. split; [now apply Hreply|].
  apply (proj1 (proj2 (proj2
    (delete_keeps_other_rows (sample_env false false) true "a2"
       [sample_row "a1" "cs_1" submitted 15;
        sample_row "a2" "cs_2" answered 5])))).
  - discriminate.
  - now left.
Defined.

(** ** The example of the description, end to end *)

Example paid_then_submitted_then_answered :
  let env := sample_env false false in
  let t1 := table_after (webhookHandler env (sample_webhook (Some "t=1,v1=ok"))) [] in
  let t2 := table_after (submit_handler env (sample_body "cs_123")) t1 in
  let t3 := table_after (respond_handler env true (sample_answer "b2")) t2 in
  map status t1 = [paid] /\ map service t1 = ["Consultation Ressenti"] /\
  map status t2 = [submitted] /\ map message t2 = [Some "Dois-je partir ?"] /\
  map status t3 = [answered] /\ map response t3 = [Some "Voici ma guidance"] /\
  reply (respond_handler env true (sample_answer "b2")) t2
  = json 200 (JResponded true true "Réponse enregistrée et email envoyé !").
Proof. repeat split. Qed.

(** * Further properties of the server *)

(** ** Start-up *)

Lemma first_missing_none (process_env : string -> option string)
    (keys : list string) :
  first_missing process_env keys = None <->
  (forall key, In key keys -> truthy (process_env key) = true).
Proof.
  induction keys as [|k keys IH]; simpl.
  - split; [intros _ key [] | reflexivity].
  - destruct (truthy (process_env k)) eqn:Hk; simpl.
    + rewrite IH. split.
      * intros Hall key [<-|Hin]; [exact Hk | now apply Hall].
      * intros Hall key Hin. apply Hall. now right.
    + split; [discriminate|]. intros Hall.
      rewrite (Hall k (or_introl eq_refl)) in Hk. discriminate Hk.
Qed.

Lemma first_missing_some (process_env : string -> option string)
    (keys : list string) (k : string) :
  first_missing process_env keys = Some k ->
  exists before after,
    keys = (before ++ k :: after)%list /\
    truthy (process_env k) = false /\
    (forall key, In key before -> truthy (process_env key) = true).
Proof.
  induction keys as [|k0 keys IH]; simpl; [discriminate|].
  destruct (truthy (process_env k0)) eqn:Hk; simpl.
  - intros Hrest. destruct (IH Hrest) as (before & after & -> & Hmiss & Hset).
    exists (k0 :: before), after. split; [reflexivity|]. split; [exact Hmiss|].
    intros key [<-|Hin]; [exact Hk | now apply Hset].
  - intros [= <-]. exists [], keys. split; [reflexivity|].
    split; [exact Hk|]. intros key [].
Qed.

(** X1.  The server gets past its environment check exactly when each of
    the six required variables is set to a non-empty value; otherwise the
    key it reports is the first of the list, in order, that is unset or
    empty. *)
Theorem server_starts_iff_env_complete (process_env : string -> option string) :
  (validate_env process_env = None <->
   forall key, In key required -> truthy (process_env key) = true) /\
  (forall k, validate_env process_env = Some k ->
     exists before after,
       required = (before ++ k :: after)%list /\
       truthy (process_env k) = false /\
       (forall key, In key before -> truthy (process_env key) = true)).
Proof.
  split; [apply first_missing_none | apply first_missing_some].
Qed.

Lemma server_starts_iff_env_complete_witness :
  validate_env (sample_process_env "") = None /\
  exists before after,
    required = (before ++ "SUPABASE_URL" :: after)%list /\
    truthy (sample_process_env "SUPABASE_URL" "SUPABASE_URL") = false.
Proof.
  split.
  - apply (proj1 (server_starts_iff_env_complete (sample_process_env ""))).
    intros key Hin. simpl in Hin.
    repeat (destruct Hin as [<-|Hin]; [reflexivity|]). destruct Hin.
  - destruct (proj2 (server_starts_iff_env_complete
                       (sample_process_env "SUPABASE_URL"))
                "SUPABASE_URL" eq_refl)
      as (before & after & Hsplit & Hmiss & _).
    exists before, after. split; [exact Hsplit | exact Hmiss].
Defined.

(** ** Admin session *)

Lemma password_matches_iff (pw : string) (password : option string) :
  password_matches pw password = true <-> password = Some pw.
Proof.
  destruct password as [p|]; simpl.
  - rewrite String.eqb_eq. split; [now intros -> | now intros [= ->]].
  - split; discriminate.
Qed.

Lemma auth_step_admin (pw : string) (s : Session) (a : AuthRequest) :
  session_admin (auth_step pw s a) = true <->
  a = AuthLogin (Some pw) \/ (session_admin s = true /\ a <> AuthLogout).
Proof.
  destruct a as [password|]; simpl.
  - unfold login_handler.
    destruct (password_matches pw password) eqn:Hm; simpl.
    + apply password_matches_iff in Hm. subst password.
      split; [now left | reflexivity].
    + split.
      * intros Hs. right. split; [exact Hs | discriminate].
      * intros [[= Heq]|[Hs _]]; [|exact Hs].
        apply password_matches_iff in Heq. congruence.
  - split; [discriminate|].
    intros [H|[_ H]]; [discriminate H | now elim H].
Qed.

(** X2.  The admin flag is only ever obtained with the password: after any
    sequence of login and logout requests the session is an admin session
    only if it was one at the start or one of the logins carried exactly
    the configured password.  A login with the password always ends in an
    admin session, a logout never does.  A login with anything else (a
    wrong password or none) is answered 401 and leaves the session as it
    is, so the sequence ends in the session it would have ended in without
    that login. *)
Theorem admin_flag_needs_password (pw : string) (s : Session)
    (requests : list AuthRequest) :
  (session_admin (auth_session pw s requests) = true ->
   session_admin s = true \/ In (AuthLogin (Some pw)) requests) /\
  session_admin (auth_session pw s (requests ++ [AuthLogin (Some pw)])) = true /\
  session_admin (auth_session pw s (requests ++ [AuthLogout])) = false /\
  (forall password, password <> Some pw ->
     login_handler pw password s
     = (json 401 (JError "Mot de passe incorrect."), Some s)) /\
  (forall password, password <> Some pw ->
     auth_session pw s (requests ++ [AuthLogin password])
     = auth_session pw s requests) /\
  login_handler pw (Some pw) s
  = (json 200 JSuccess, Some {| session_admin := true |}).
Proof.
  assert (Hwrong : forall password s', password <> Some pw ->
            login_handler pw password s'
            = (json 401 (JError "Mot de passe incorrect."), Some s')).
  { intros password s' Hne. unfold login_handler.
    destruct (password_matches pw password) eqn:Hm; [|reflexivity].
    apply password_matches_iff in Hm. contradiction. }
  unfold auth_session. split; [|split; [|split; [|split; [|split]]]].
  - revert s. induction requests as [|a requests IH]; intros s; simpl.
    + now left.
    + intros Hend. destruct (IH _ Hend) as [Hstep|Hin]; [|right; now right].
      apply auth_step_admin in Hstep.
      destruct Hstep as [->|[Hs _]]; [right; now left | now left].
  - rewrite fold_left_app. cbn [fold_left]. apply auth_step_admin. now left.
  - rewrite fold_left_app. reflexivity.
  - intros password Hne. now apply Hwrong.
  - intros password Hne. rewrite fold_left_app. cbn [fold_left].
    unfold auth_step. now rewrite Hwrong.
  - unfold login_handler.
    assert (Hm : password_matches pw (Some pw) = true)
      by now apply password_matches_iff.
    now rewrite Hm.
Qed.

Lemma admin_flag_needs_password_witness :
  In (AuthLogin (Some "s3cret"))
     [AuthLogin (Some "guess"); AuthLogin (Some "s3cret"); AuthLogin None] /\
  login_handler "s3cret" (Some "guess") {| session_admin := true |}
  = (json 401 (JError "Mot de passe incorrect."),
     Some {| session_admin := true |}) /\
  auth_session "s3cret" {| session_admin := false |}
    ([AuthLogin (Some "s3cret")] ++ [AuthLogin None])
  = {| session_admin := true |}.
Proof.
  split; [|split].
  - destruct (proj1 (admin_flag_needs_password "s3cret"
                       {| session_admin := false |}
                       [AuthLogin (Some "guess"); AuthLogin (Some "s3cret");
                        AuthLogin None]) eq_refl) as [Hs|Hin].
    + discriminate Hs.
    + exact Hin.
  - apply (proj1 (proj2 (proj2 (proj2
             (admin_flag_needs_password "s3cret" {| session_admin := true |}
                []))))).
    discriminate.
  - rewrite (proj1 (proj2 (proj2 (proj2 (proj2
               (admin_flag_needs_password "s3cret"
                  {| session_admin := false |}
                  [AuthLogin (Some "s3cret")]))))) None);
      [reflexivity | discriminate].
Defined.

(** X3.  Without the admin flag the four admin routes do nothing at all:
    each answers 401, the table is the one it was and no effect reaches
    the store, the provider, the mailer or the console. *)
Theorem admin_routes_closed (env : Env) (t : list Consultation)
    (b : RespondBody) (pid : string) (s : Session) :
  session_admin s = false ->
  run (stats_handler env (session_admin s)) t
    = (json 401 (JError "Non autorisé."), {| consultations := t; trace := [] |}) /\
  run (list_handler env (session_admin s)) t
    = (inl (json 401 (JError "Non autorisé.")),
       {| consultations := t; trace := [] |}) /\
  run (respond_handler env (session_admin s) b) t
    = (json 401 (JError "Non autorisé."), {| consultations := t; trace := [] |}) /\
  run (delete_handler env (session_admin s) pid) t
    = (json 401 (JError "Non autorisé."), {| consultations := t; trace := [] |}).
Proof.
  intros ->. repeat split.
Qed.

Lemma admin_routes_closed_witness :
  run (delete_handler (sample_env false false)
         (session_admin (auth_session "s3cret" {| session_admin := true |}
                           [AuthLogout; AuthLogin (Some "guess")])) "a1")
      [sample_row "a1" "cs_1" submitted 15]
  = (json 401 (JError "Non autorisé."),
     {| consultations := [sample_row "a1" "cs_1" submitted 15]; trace := [] |}).
Proof.
  apply (admin_routes_closed (sample_env false false)
           [sample_row "a1" "cs_1" submitted 15] (sample_answer "a1") "a1"
           (auth_session "s3cret" {| session_admin := true |}
              [AuthLogout; AuthLogin (Some "guess")])).
  reflexivity.
Defined.

(** ** Email template *)

Lemma replace_newlines_cons (c : ascii) (s : string) :
  replace_newlines (String c s)
  = if Ascii.eqb c newline then "<br>" ++ replace_newlines s
    else String c (replace_newlines s).
Proof. reflexivity. Qed.

Lemma replace_newlines_clean (s : string) :
  has_newline (replace_newlines s) = false.
Proof.
  induction s as [|c s IH]; [reflexivity|].
  rewrite replace_newlines_cons.
  destruct (Ascii.eqb c newline) eqn:Hc.
  - simpl. exact IH.
  - change (has_newline (String c (replace_newlines s)))
      with (Ascii.eqb c newline || has_newline (replace_newlines s)).
    now rewrite Hc.
Qed.

Lemma replace_newlines_verbatim (s : string) :
  has_newline s = false -> replace_newlines s = s.
Proof.
  induction s as [|c s IH]; [reflexivity|].
  simpl has_newline. intros Hno. apply orb_false_iff in Hno.
  destruct Hno as [Hc Hs]. rewrite replace_newlines_cons, Hc.
  now rewrite IH.
Qed.

(** X4.  The response text as it goes into the mail never contains a line
    feed: each one has become a line-break tag, so the text grows by three
    characters per line feed, and converting twice changes nothing more. *)
Theorem response_html_has_no_newline (s : string) :
  has_newline (replace_newlines s) = false /\
  String.length (replace_newlines s) = String.length s + 3 * count_newlines s /\
  replace_newlines (replace_newlines s) = replace_newlines s.
Proof.
  split; [apply replace_newlines_clean|].
  split; [|apply replace_newlines_verbatim, replace_newlines_clean].
  induction s as [|c s IH]; [reflexivity|].
  rewrite replace_newlines_cons. simpl count_newlines.
  destruct (Ascii.eqb c newline); simpl; rewrite IH; lia.
Qed.

(** X5.  The conversion works piece by piece (converting a concatenation
    is concatenating the conversions) and copies every other character as
    it is, and the template escapes nothing: a text without line feed,
    markup included, stands unchanged in the mail body, between the
    template text before the response and the template text after it. *)
Theorem response_html_is_verbatim (a b : string) :
  replace_newlines (a ++ b) = replace_newlines a ++ replace_newlines b /\
  (has_newline a = false -> replace_newlines a = a) /\
  (has_newline a = false ->
   forall env c,
     mail_html (respond_mail env c a)
     = email_opening ++ interpolate (name c) ++ email_after_name
       ++ service c ++ email_after_service ++ a ++ email_closing).
Proof.
  split; [|split].
  - induction a as [|c a IH]; [reflexivity|].
    simpl append. rewrite !replace_newlines_cons, IH. unfold newline.
    destruct (Ascii.eqb c "010"); reflexivity.
  - apply replace_newlines_verbatim.
  - intros Hno env c. unfold respond_mail, buildResponseEmail.
    cbn [mail_html]. cbv zeta. now rewrite replace_newlines_verbatim.
Qed.

Lemma response_html_is_verbatim_witness :
  replace_newlines "<b>Oui</b>" = "<b>Oui</b>" /\
  mail_html (respond_mail (sample_env false false)
               (sample_row "a1" "cs_1" submitted 15) "<b>Oui</b>")
  = email_opening ++ "Lina" ++ email_after_name
    ++ "Consultation Ressenti" ++ email_after_service
    ++ "<b>Oui</b>" ++ email_closing.
Proof.
  split.
  - apply (proj1 (proj2 (response_html_is_verbatim "<b>Oui</b>" ""))).
    reflexivity.
  - apply (proj2 (proj2 (response_html_is_verbatim "<b>Oui</b>" ""))
             eq_refl (sample_env false false)
             (sample_row "a1" "cs_1" submitted 15)).
Defined.

(** ** List of consultations *)

Lemma later_first_total (a b : Consultation) :
  later_first a b = false -> later_first b a = true.
Proof.
  unfold later_first.
  destruct (submitted_at a) as [x|], (submitted_at b) as [y|];
    try reflexivity; try discriminate.
  intros Hyx. destruct (String.leb_total y x) as [H|H]; congruence.
Qed.

Lemma insert_desc_perm (c : Consultation) (rows : list Consultation) :
  Permutation (insert_desc c rows) (c :: rows).
Proof.
  induction rows as [|x rows IH]; simpl; [reflexivity|].
  destruct (later_first c x); [reflexivity|].
  rewrite IH. apply perm_swap.
Qed.

Lemma order_desc_perm (rows : list Consultation) :
  Permutation (order_desc rows) rows.
Proof.
  induction rows as [|c rows IH]; simpl; [reflexivity|].
  rewrite insert_desc_perm. now constructor.
Qed.

Lemma insert_desc_hd (c y : Consultation) (rows : list Consultation) :
  later_first y c = true ->
  HdRel (fun a b => later_first a b = true) y rows ->
  HdRel (fun a b => later_first a b = true) y (insert_desc c rows).
Proof.
  intros Hyc Hhd. destruct rows as [|x rows]; simpl.
  - now constructor.
  - destruct (later_first c x); constructor; [exact Hyc|].
    now inversion Hhd.
Qed.

Lemma insert_desc_sorted (c : Consultation) (rows : list Consultation) :
  Sorted (fun a b => later_first a b = true) rows ->
  Sorted (fun a b => later_first a b = true) (insert_desc c rows).
Proof.
  induction rows as [|x rows IH]; intros Hs; simpl.
  - repeat constructor.
  - inversion Hs as [|x' rows' Hrest Hhd]; subst.
    destruct (later_first c x) eqn:Hcx.
    + constructor; [exact Hs | now constructor].
    + constructor; [now apply IH|].
      apply insert_desc_hd; [now apply later_first_total | exact Hhd].
Qed.

Lemma order_desc_sorted (rows : list Consultation) :
  Sorted (fun a b => later_first a b = true) (order_desc rows).
Proof.
  induction rows as [|c rows IH]; simpl; [constructor|].
  now apply insert_desc_sorted.
Qed.

Lemma list_run (env : Env) (t : list Consultation) :
  select_error env = false ->
  run (list_handler env true) t
  = (inr (order_desc (filter in_submitted_answered t)),
     {| consultations := t; trace := [SupabaseSelectIn] |}).
Proof.
  intros Hsel. unfold run, list_handler, supabase_select_in_ordered.
  cbn. rewrite Hsel. reflexivity.
Qed.

(** X6.  For an admin session on a store that answers, the list route
    sends each row that has left [paid] once, and no other row, ordered
    by submission time from the latest to the earliest (rows without one
    first); it reads the table and leaves it as it is. *)
Theorem list_shows_rows_that_left_paid (env : Env) (t : list Consultation) :
  select_error env = false ->
  exists rows,
    fst (run (list_handler env true) t) = inr rows /\
    Permutation rows (filter in_submitted_answered t) /\
    (forall c, In c rows <-> In c t /\ status c <> paid) /\
    Sorted (fun a b => later_first a b = true) rows /\
    consultations (snd (run (list_handler env true) t)) = t.
Proof.
  intros Hsel. rewrite (list_run env t Hsel).
  exists (order_desc (filter in_submitted_answered t)).
  split; [reflexivity|]. split; [apply order_desc_perm|].
  split; [|split; [apply order_desc_sorted | reflexivity]].
  intros c. split.
  - intros Hin. apply (Permutation_in _ (order_desc_perm _)) in Hin.
    apply filter_In in Hin. destruct Hin as [Hin Hst]. split; [exact Hin|].
    rewrite in_submitted_answered_aggregated in Hst.
    intros Hp. rewrite Hp in Hst. discriminate Hst.
  - intros [Hin Hst].
    apply (Permutation_in _ (Permutation_sym (order_desc_perm _))).
    apply filter_In. split; [exact Hin|].
    rewrite in_submitted_answered_aggregated.
    destruct (status c); [now elim Hst | reflexivity | reflexivity].
Qed.

Lemma list_shows_rows_that_left_paid_witness :
  exists rows,
    fst (run (list_handler (sample_env false false) true)
           [sample_row "a1" "cs_1" submitted 15;
            sample_row "a2" "cs_2" paid 5;
            sample_row "a3" "cs_3" answered 5]) = inr rows /\
    Permutation rows [sample_row "a1" "cs_1" submitted 15;
                      sample_row "a3" "cs_3" answered 5].
Proof.
  destruct (list_shows_rows_that_left_paid (sample_env false false)
              [sample_row "a1" "cs_1" submitted 15;
               sample_row "a2" "cs_2" paid 5;
               sample_row "a3" "cs_3" answered 5] eq_refl)
    as (rows & Hrows & Hperm & _).
  exists rows. split; [exact Hrows | exact Hperm].
Defined.

(** X7.  The dashboard agrees with the list: on the same table the total
    the stats route reports is the number of rows the list route sends,
    and pending plus answered make up that number. *)
Theorem stats_total_is_list_length (env : Env) (t : list Consultation) :
  select_error env = false ->
  exists rows pending answered_count revenue,
    fst (run (list_handler env true) t) = inr rows /\
    reply (stats_handler env true) t
    = json 200 (JStats (length rows) pending answered_count revenue) /\
    pending + answered_count = length rows.
Proof.
  intros Hsel. rewrite (list_run env t Hsel), (stats_reply env t Hsel).
  cbv zeta. do 4 eexists. split; [reflexivity|].
  rewrite (Permutation_length (order_desc_perm _)).
  split; [reflexivity|].
  rewrite length_selected, !length_selected_with by reflexivity.
  symmetry. apply count_aggregated_split.
Qed.

Lemma stats_total_is_list_length_witness :
  exists rows pending answered_count revenue,
    fst (run (list_handler (sample_env false false) true)
           [sample_row "a1" "cs_1" submitted 15;
            sample_row "a2" "cs_2" paid 5]) = inr rows /\
    reply (stats_handler (sample_env false false) true)
          [sample_row "a1" "cs_1" submitted 15;
           sample_row "a2" "cs_2" paid 5]
    = json 200 (JStats (length rows) pending answered_count revenue).
Proof.
  destruct (stats_total_is_list_length (sample_env false false)
              [sample_row "a1" "cs_1" submitted 15;
               sample_row "a2" "cs_2" paid 5] eq_refl)
    as (rows & p & a & rev & Hl & Hs & _).
  exists rows, p, a, rev. split; [exact Hl | exact Hs].
Defined.

(** ** Inserts *)

(** What an insert does, by whether the store takes the row. *)
Lemma insert_run (env : Env) (v : InsertValues) (w : World) :
  runState (supabase_insert env v) w
  = if insert_error env || violates_unique (consultations w) (new_row env v)
    then (true, {| consultations := consultations w;
                   trace := trace w ++ [SupabaseInsert (new_row env v) false] |})
    else (false, {| consultations := consultations w ++ [new_row env v];
                    trace := trace w ++ [SupabaseInsert (new_row env v) true] |}).
Proof.
  unfold supabase_insert. cbn.
  destruct (insert_error env || violates_unique (consultations w) (new_row env v));
    reflexivity.
Qed.

Lemma id_key_taken (t : list Consultation) (c r : Consultation) :
  In c t -> id r = id c -> violates_unique t r = true.
Proof.
  intros Hin Heq. unfold violates_unique. apply orb_true_iff. left.
  apply existsb_exists. exists c. split; [exact Hin|].
  now apply eq_filter_true.
Qed.

(** ** Webhook deliveries *)

Lemma webhook_cases (env : Env) (req : WebhookRequest) (t : list Consultation) :
  table_after (webhookHandler env req) t = t \/
  exists ev,
    signature_verifies env req ev /\
    event_type ev = "checkout.session.completed" /\
    violates_unique t (new_row env (webhook_values (event_data_object ev)))
    = false /\
    table_after (webhookHandler env req) t
    = (t ++ [new_row env (webhook_values (event_data_object ev))])%list.
Proof.
  unfold_run; unfold webhookHandler.
  destruct (truthy (stripe_signature req)) eqn:Hsig; cbn; [|now left].
  destruct (stripe_signature req) as [sig|] eqn:Hs; [|discriminate Hsig].
  destruct (constructEvent env (raw_body req) sig) as [m|ev] eqn:Hev;
    cbn; [now left|].
  destruct (String.eqb_spec (event_type ev) "checkout.session.completed")
    as [Hty|Hty]; cbn; [|now left].
  unfold supabase_insert. cbn.
  destruct (insert_error env || violates_unique t _) eqn:E; cbn; [now left|].
  apply orb_false_iff in E. destruct E as [_ E].
  right. exists ev. split; [exists sig; repeat split; assumption|].
  split; [exact Hty|]. split; [exact E | reflexivity].
Qed.

Lemma webhook_refused (env : Env) (req : WebhookRequest)
    (t : list Consultation) (ev : StripeEvent) :
  signature_verifies env req ev ->
  violates_unique t (new_row env (webhook_values (event_data_object ev))) = true ->
  table_after (webhookHandler env req) t = t /\
  reply (webhookHandler env req) t = json 200 JReceived.
Proof.
  intros (sig & Hs & Ht & He) Hu. unfold_run; unfold webhookHandler.
  rewrite Hs, Ht. cbn [negb]. rewrite He.
  destruct (String.eqb (event_type ev) "checkout.session.completed");
    cbn; [|now split].
  unfold supabase_insert. cbn.
  change (violates_unique t
            (new_row env (webhook_values (event_data_object ev))) = true) in Hu.
  unfold webhook_values in Hu. rewrite Hu, orb_true_r. cbn. now split.
Qed.

(** X8.  Delivering a webhook again is harmless: serving the same request
    a second time leaves the table as the first delivery left it, and an
    event for a session that already has a row, whatever its status, is
    acknowledged with 200 without touching that row or adding one. *)
Theorem webhook_replay_is_harmless (env : Env) (req : WebhookRequest)
    (t : list Consultation) :
  table_after (webhookHandler env req)
    (table_after (webhookHandler env req) t)
  = table_after (webhookHandler env req) t /\
  (forall ev c,
     signature_verifies env req ev -> In c t ->
     stripe_session_id c = session_id (event_data_object ev) ->
     table_after (webhookHandler env req) t = t /\
     reply (webhookHandler env req) t = json 200 JReceived).
Proof.
  split.
  - destruct (webhook_cases env req t) as [Hsame|(ev & Hv & _ & _ & Hnew)].
    + now rewrite Hsame.
    + rewrite Hnew. apply (webhook_refused env req _ ev Hv).
      apply (id_key_taken _
               (new_row env (webhook_values (event_data_object ev))));
        [apply in_or_app; right; now left | reflexivity].
  - intros ev c Hv Hin Hsid. apply (webhook_refused env req t ev Hv).
    now apply (session_key_taken t c).
Qed.

Lemma webhook_replay_is_harmless_witness :
  table_after (webhookHandler (sample_env false false)
                 (sample_webhook (Some "t=1,v1=ok")))
    [sample_row "a1" "cs_123" submitted 15]
  = [sample_row "a1" "cs_123" submitted 15].
Proof.
  apply (proj2 (webhook_replay_is_harmless (sample_env false false)
                  (sample_webhook (Some "t=1,v1=ok"))
                  [sample_row "a1" "cs_123" submitted 15])
           sample_event (sample_row "a1" "cs_123" submitted 15)).
  - exists "t=1,v1=ok". repeat split.
  - now left.
  - reflexivity.
Defined.

(** ** Lookups after an insert or an update *)

Section PatchedColumn.

Variable column : Consultation -> string.

Lemma map_patch_absent (v : string) (g : Consultation -> Consultation)
    (t : list Consultation) :
  (forall x, In x t -> column x <> v) ->
  map (fun x => if eq_filter column v x then g x else x) t = t.
Proof.
  induction t as [|a t IH]; intros Hno; [reflexivity|].
  simpl. assert (Ha : eq_filter column v a = false).
  { apply eq_filter_false, Hno. now left. }
  rewrite Ha, IH; [reflexivity|]. intros x Hx. apply Hno. now right.
Qed.

Lemma filter_snoc_new (t : list Consultation) (r : Consultation) :
  (forall x, In x t -> column x <> column r) ->
  filter (eq_filter column (column r)) (t ++ [r]) = [r].
Proof.
  intros Hno. rewrite filter_app, (filter_absent column _ _ Hno). simpl.
  assert (Hr : eq_filter column (column r) r = true)
    by now apply eq_filter_true.
  now rewrite Hr.
Qed.

Lemma filter_patched (v : string) (g : Consultation -> Consultation)
    (t : list Consultation) :
  (forall x, column (g x) = column x) ->
  filter (eq_filter column v)
    (map (fun x => if eq_filter column v x then g x else x) t)
  = map g (filter (eq_filter column v) t).
Proof.
  intros Hg. induction t as [|a t IH]; [reflexivity|].
  simpl. destruct (eq_filter column v a) eqn:Ha; simpl.
  - assert (Hga : eq_filter column v (g a) = true).
    { apply eq_filter_true. rewrite Hg. now apply eq_filter_true. }
    now rewrite Hga, IH.
  - now rewrite Ha, IH.
Qed.

End PatchedColumn.

(** ** Runs of the submit handler *)

Lemma submit_updates (env : Env) (b : SubmitBody) (t : list Consultation)
    (sid : string) (c : Consultation) :
  required_fields b -> body_session_id b = Some sid ->
  select_error env = false -> update_error env = false ->
  filter (eq_filter stripe_session_id sid) t = [c] -> status c = paid ->
  run (submit_handler env b) t
  = (json 200 JSuccess,
     {| consultations :=
          map (fun x => if eq_filter stripe_session_id sid x
                        then submit_patch env b x else x) t;
        trace := [SupabaseSelect "stripe_session_id" sid;
                  SupabaseUpdate "stripe_session_id" sid true;
                  ConsoleLog ("Question submitted for session " ++ sid)] |}).
Proof.
  intros Hreq Hsid Hsel Hupd Hf Hst.
  unfold run, submit_handler, supabase_select_single.
  pass_required Hreq. rewrite Hsid. cbn. rewrite Hsel, Hf. cbn. rewrite Hst.
  unfold supabase_update. cbn. rewrite Hupd. reflexivity.
Qed.

(** A submit for a session whose one row has left [paid] writes nothing
    and cannot succeed, whatever the store and the provider do. *)
Lemma submit_refused (env : Env) (b : SubmitBody) (t : list Consultation)
    (sid : string) (c : Consultation) :
  body_session_id b = Some sid ->
  filter (eq_filter stripe_session_id sid) t = [c] -> status c <> paid ->
  table_after (submit_handler env b) t = t /\
  reply (submit_handler env b) t <> json 200 JSuccess /\
  provider_calls (trace_of (submit_handler env b) t)
    = (if select_error env && truthy (body_name b) && truthy (body_email b)
          && truthy (body_message b) && truthy (body_session_id b)
       then [sid] else []) /\
  (select_error env = false -> required_fields b ->
   reply (submit_handler env b) t
   = json 400 (JError
       "Vous avez déjà soumis votre question pour cette consultation.")).
Proof.
  intros Hsid Hf Hst.
  destruct (filter_singleton_in stripe_session_id sid t c Hf) as [Hin Hc].
  destruct (truthy (body_session_id b)) eqn:H1;
    [destruct (truthy (body_name b)) eqn:H2;
     [destruct (truthy (body_email b)) eqn:H3;
      [destruct (truthy (body_message b)) eqn:H4|]|]|].
  2-5: unfold_run; unfold submit_handler; rewrite ?H1, ?H2, ?H3, ?H4; cbn.
  2-5: rewrite ?andb_false_r; split; [reflexivity|]; split; [discriminate|].
  2-5: split; [reflexivity|]; intros _ (R1 & R2 & R3 & R4); congruence.
  destruct (select_error env) eqn:Hsel.
  - unfold_obs.
    rewrite (submit_runs_fallback env b t sid) by (repeat split; auto).
    destruct (submit_fallback_outcome env b sid
      {| consultations := t;
         trace := [SupabaseSelect "stripe_session_id" sid] |})
      as [[Ht Hr]|(r & _ & Hs & Hu & _)].
    + split; [exact Ht|]. split; [exact Hr|].
      split; [|intros Hfalse; discriminate Hfalse].
      unfold submit_fallback. cbn.
      destruct (sessions_retrieve env sid) as [s|]; cbn; [|reflexivity].
      destruct (payment_status s); cbn; try reflexivity.
      unfold supabase_insert. cbn.
      destruct (insert_error env || violates_unique t _); reflexivity.
    + cbn in Hu. rewrite (session_key_taken t c r Hin) in Hu by congruence.
      discriminate Hu.
  - unfold_run; unfold submit_handler, supabase_select_single.
    rewrite H1, H2, H3, H4, Hsid. cbn. rewrite Hsel, Hf. cbn.
    destruct (status c); cbn; try (now elim Hst);
      (split; [reflexivity|]; split; [discriminate|];
       split; [reflexivity|]; reflexivity).
Qed.

Lemma form_run_found (env : Env) (sid : string) (t : list Consultation)
    (c : Consultation) :
  truthy (Some sid) = true -> select_error env = false ->
  filter (eq_filter stripe_session_id sid) t = [c] ->
  run (form_handler env (Some sid)) t
  = (match status c with
     | paid => sendFile "form.html"
     | _ => sendFile "already-submitted.html"
     end,
     {| consultations := t;
        trace := [SupabaseSelect "stripe_session_id" sid] |}).
Proof.
  intros Hq Hsel Hf. unfold run, form_handler, supabase_select_single.
  rewrite Hq. cbn. rewrite Hsel, Hf. cbn. now destruct (status c).
Qed.

(** ** Test route *)

Lemma test_run (env : Env) (date_now error_message : string)
    (t : list Consultation) :
  insert_error env = false ->
  violates_unique t (new_row env (test_values date_now)) = false ->
  run (test_handler env date_now error_message) t
  = (redirect ("/form?session_id=" ++ "test_" ++ date_now),
     {| consultations := t ++ [new_row env (test_values date_now)];
        trace := [SupabaseInsert (new_row env (test_values date_now)) true;
                  ConsoleLog ("Test consultation created: "
                              ++ "test_" ++ date_now)] |}).
Proof.
  intros Hins Hu. unfold run, test_handler, supabase_insert. cbn.
  rewrite Hins. cbn [orb].
  change (violates_unique t (new_row env (test_values date_now)) = false) in Hu.
  unfold test_values in Hu. cbn in Hu. rewrite Hu. reflexivity.
Qed.

(** X9.  The test route opens a consultation without any payment and
    without the admin flag: when the store takes the row, the visitor is
    redirected to the form for a new [paid] row, the form gate then
    serves the form and a complete submit for that session succeeds, and
    neither of the two asks the payment provider. *)
Theorem test_route_skips_payment (env : Env) (date_now error_message : string)
    (t : list Consultation) :
  insert_error env = false -> select_error env = false ->
  (forall x, In x t -> id x <> uuid_generate_v4 env) ->
  (forall x, In x t -> stripe_session_id x <> "test_" ++ date_now) ->
  let sid := "test_" ++ date_now in
  let t1 := table_after (test_handler env date_now error_message) t in
  reply (test_handler env date_now error_message) t
    = redirect ("/form?session_id=" ++ sid) /\
  t1 = (t ++ [new_row env (test_values date_now)])%list /\
  reply (form_handler env (Some sid)) t1 = sendFile "form.html" /\
  provider_calls (trace_of (form_handler env (Some sid)) t1) = [] /\
  (forall b,
     required_fields b -> body_session_id b = Some sid ->
     update_error env = false ->
     reply (submit_handler env b) t1 = json 200 JSuccess /\
     provider_calls (trace_of (submit_handler env b) t1) = [] /\
     table_after (submit_handler env b) t1
     = (t ++ [submit_patch env b (new_row env (test_values date_now))])%list).
Proof.
  intros Hins Hsel Hid Hsid sid t1.
  assert (Hu : violates_unique t (new_row env (test_values date_now)) = false)
    by (apply keys_free; assumption).
  assert (Ht1 : t1 = (t ++ [new_row env (test_values date_now)])%list).
  { unfold t1, table_after.
    now rewrite (test_run env date_now error_message t Hins Hu). }
  assert (Hf : filter (eq_filter stripe_session_id sid) t1
               = [new_row env (test_values date_now)]).
  { rewrite Ht1.
    apply (filter_snoc_new stripe_session_id t
             (new_row env (test_values date_now))). exact Hsid. }
  split; [|split; [exact Ht1|split; [|split]]].
  - unfold reply.
    now rewrite (test_run env date_now error_message t Hins Hu).
  - unfold reply. now rewrite (form_run_found env sid t1 _ eq_refl Hsel Hf).
  - unfold trace_of. now rewrite (form_run_found env sid t1 _ eq_refl Hsel Hf).
  - intros b Hreq Hb Hupd. unfold_obs.
    rewrite (submit_updates env b t1 sid _ Hreq Hb Hsel Hupd Hf eq_refl).
    split; [reflexivity|]. split; [reflexivity|]. cbn [snd consultations].
    rewrite Ht1, map_app, (map_patch_absent stripe_session_id) by exact Hsid.
    cbn [map].
    assert (Hr : eq_filter stripe_session_id sid
                   (new_row env (test_values date_now)) = true)
      by now apply eq_filter_true.
    now rewrite Hr.
Qed.

Lemma test_route_skips_payment_witness :
  reply (submit_handler (sample_env false false) (sample_body "test_1767261600000"))
        (table_after (test_handler (sample_env false false) "1767261600000" "")
           [sample_row "a1" "cs_1" submitted 15])
  = json 200 JSuccess.
Proof.
  destruct (test_route_skips_payment (sample_env false false)
              "1767261600000" "" [sample_row "a1" "cs_1" submitted 15]
              eq_refl eq_refl) as (_ & _ & _ & _ & Hsubmit).
  - intros x [<-|[]]. discriminate.
  - intros x [<-|[]]. discriminate.
  - apply (Hsubmit (sample_body "test_1767261600000")).
    + repeat split.
    + reflexivity.
    + reflexivity.
Defined.

(** ** Webhook first, submit next *)

Lemma webhook_inserts (env : Env) (req : WebhookRequest)
    (t : list Consultation) (ev : StripeEvent) :
  signature_verifies env req ev ->
  event_type ev = "checkout.session.completed" ->
  insert_error env = false ->
  violates_unique t (new_row env (webhook_values (event_data_object ev))) = false ->
  table_after (webhookHandler env req) t
  = (t ++ [new_row env (webhook_values (event_data_object ev))])%list.
Proof.
  intros (sig & Hs & Ht & He) Hty Hins Hu. unfold_run; unfold webhookHandler.
  rewrite Hs, Ht. cbn [negb]. rewrite He, Hty. cbn.
  unfold supabase_insert. cbn. rewrite Hins. cbn [orb].
  change (violates_unique t
            (new_row env (webhook_values (event_data_object ev))) = false) in Hu.
  unfold webhook_values in Hu. rewrite Hu. reflexivity.
Qed.

(** X10.  The normal path composes: once a verified checkout event has
    created the row of a session, a complete submit for that session is
    accepted without asking the provider, and it turns exactly that row
    into the submitted one, amount and label being those the webhook
    wrote; the rows that were there before are as they were. *)
Theorem webhook_then_submit (env1 env2 : Env) (req : WebhookRequest)
    (ev : StripeEvent) (b : SubmitBody) (t : list Consultation) :
  signature_verifies env1 req ev ->
  event_type ev = "checkout.session.completed" ->
  insert_error env1 = false ->
  (forall x, In x t -> id x <> uuid_generate_v4 env1) ->
  (forall x, In x t ->
     stripe_session_id x <> session_id (event_data_object ev)) ->
  required_fields b ->
  body_session_id b = Some (session_id (event_data_object ev)) ->
  select_error env2 = false -> update_error env2 = false ->
  let t1 := table_after (webhookHandler env1 req) t in
  let row := new_row env1 (webhook_values (event_data_object ev)) in
  reply (submit_handler env2 b) t1 = json 200 JSuccess /\
  provider_calls (trace_of (submit_handler env2 b) t1) = [] /\
  table_after (submit_handler env2 b) t1
    = (t ++ [submit_patch env2 b row])%list /\
  status (submit_patch env2 b row) = submitted /\
  amount (submit_patch env2 b row)
    = div100 (nullish0 (amount_total (event_data_object ev))) /\
  service (submit_patch env2 b row)
    = webhook_service (nullish0 (amount_total (event_data_object ev))).
Proof.
  intros Hv Hty Hins Hid Hsid Hreq Hb Hsel Hupd t1 row.
  assert (Hu : violates_unique t row = false) by (apply keys_free; assumption).
  assert (Ht1 : t1 = (t ++ [row])%list)
    by (apply webhook_inserts; assumption).
  assert (Hf : filter (eq_filter stripe_session_id
                         (session_id (event_data_object ev))) t1 = [row]).
  { rewrite Ht1. apply (filter_snoc_new stripe_session_id t row). exact Hsid. }
  unfold_obs.
  rewrite (submit_updates env2 b t1 _ row Hreq Hb Hsel Hupd Hf eq_refl).
  split; [reflexivity|]. split; [reflexivity|].
  split; [|repeat split]. cbn [snd consultations].
  rewrite Ht1, map_app, (map_patch_absent stripe_session_id) by exact Hsid.
  cbn [map].
  assert (Hr : eq_filter stripe_session_id
                 (session_id (event_data_object ev)) row = true)
    by now apply eq_filter_true.
  now rewrite Hr.
Qed.

Lemma webhook_then_submit_witness :
  reply (submit_handler (sample_env false true) (sample_body "cs_123"))
        (table_after (webhookHandler (sample_env false false)
                        (sample_webhook (Some "t=1,v1=ok")))
           [sample_row "a1" "cs_1" answered 5])
  = json 200 JSuccess.
Proof.
  assert (Hv : signature_verifies (sample_env false false)
                 (sample_webhook (Some "t=1,v1=ok")) sample_event)
    by (exists "t=1,v1=ok"; repeat split).
  destruct (webhook_then_submit (sample_env false false)
              (sample_env false true)
              (sample_webhook (Some "t=1,v1=ok")) sample_event
              (sample_body "cs_123") [sample_row "a1" "cs_1" answered 5]
              Hv eq_refl eq_refl) as (Hreply & _).
  - intros x [<-|[]]. discriminate.
  - intros x [<-|[]]. discriminate.
  - repeat split.
  - reflexivity.
  - reflexivity.
  - reflexivity.
  - exact Hreply.
Defined.

(** ** Submitting twice *)

(** X11.  A session is submitted once: after a submit has turned the
    [paid] row of a session into the submitted one, any further submit
    for that session, whatever it carries and whatever the store and the
    provider do, writes nothing and is not answered success (400 with the
    duplicate-submission message when the lookup works and the fields are
    there), so the data of the first submission stays. *)
Theorem second_submit_is_refused (env1 env2 : Env) (b1 b2 : SubmitBody)
    (t : list Consultation) (sid : string) (c : Consultation) :
  required_fields b1 -> body_session_id b1 = Some sid ->
  select_error env1 = false -> update_error env1 = false ->
  store_ok t -> In c t -> stripe_session_id c = sid -> status c = paid ->
  body_session_id b2 = Some sid ->
  let t1 := table_after (submit_handler env1 b1) t in
  reply (submit_handler env1 b1) t = json 200 JSuccess /\
  In (submit_patch env1 b1 c) t1 /\
  table_after (submit_handler env2 b2) t1 = t1 /\
  reply (submit_handler env2 b2) t1 <> json 200 JSuccess /\
  (select_error env2 = false -> required_fields b2 ->
   reply (submit_handler env2 b2) t1
   = json 400 (JError
       "Vous avez déjà soumis votre question pour cette consultation.")).
Proof.
  intros Hreq Hb1 Hsel Hupd Hok Hin Hsid Hst Hb2 t1.
  assert (Hf : filter (eq_filter stripe_session_id sid) t = [c])
    by (rewrite <- Hsid; now apply session_lookup_found).
  assert (Ht1 : t1 = map (fun x => if eq_filter stripe_session_id sid x
                                   then submit_patch env1 b1 x else x) t).
  { unfold t1, table_after.
    now rewrite (submit_updates env1 b1 t sid c Hreq Hb1 Hsel Hupd Hf Hst). }
  assert (Hf1 : filter (eq_filter stripe_session_id sid) t1
                = [submit_patch env1 b1 c]).
  { rewrite Ht1, (filter_patched stripe_session_id) by reflexivity.
    now rewrite Hf. }
  split.
  { unfold reply.
    now rewrite (submit_updates env1 b1 t sid c Hreq Hb1 Hsel Hupd Hf Hst). }
  split.
  { apply (filter_singleton_in stripe_session_id sid t1 _ Hf1). }
  destruct (submit_refused env2 b2 t1 sid (submit_patch env1 b1 c) Hb2 Hf1)
    as (Hsame & Hno & _ & Hdup); [discriminate|].
  split; [exact Hsame|]. split; [exact Hno | exact Hdup].
Qed.

Lemma second_submit_is_refused_witness :
  reply (submit_handler (sample_env false false) (sample_body "cs_123"))
        (table_after (submit_handler (sample_env false false)
                        (sample_body "cs_123"))
           [sample_row "a1" "cs_123" paid 15])
  = json 400 (JError
      "Vous avez déjà soumis votre question pour cette consultation.").
Proof.
  assert (Hok : store_ok [sample_row "a1" "cs_123" paid 15]) by table_ok.
  assert (Hreq : required_fields (sample_body "cs_123")) by (repeat split).
  destruct (second_submit_is_refused (sample_env false false)
              (sample_env false false) (sample_body "cs_123")
              (sample_body "cs_123") [sample_row "a1" "cs_123" paid 15]
              "cs_123" (sample_row "a1" "cs_123" paid 15)
              Hreq eq_refl eq_refl eq_refl Hok (or_introl eq_refl)
              eq_refl eq_refl eq_refl)
    as (_ & _ & _ & _ & Hdup).
  apply Hdup; [reflexivity | exact Hreq].
Defined.

(** ** The form gate and the submit handler agree *)

Lemma form_already_submitted_inv (env : Env) (q : option string)
    (t : list Consultation) :
  reply (form_handler env q) t = sendFile "already-submitted.html" ->
  exists sid d,
    q = Some sid /\ truthy q = true /\ select_error env = false /\
    filter (eq_filter stripe_session_id sid) t = [d] /\ status d <> paid.
Proof.
  unfold_run; unfold form_handler, supabase_select_single.
  destruct (truthy q) eqn:Hq; cbn; [|discriminate].
  destruct q as [sid|]; [|discriminate Hq].
  destruct (select_error env) eqn:Hsel; cbn.
  - destruct (sessions_retrieve env sid) as [s|]; cbn; [|discriminate].
    destruct (payment_status s); discriminate.
  - destruct (filter (eq_filter stripe_session_id sid) t)
      as [|d [|d' rest]] eqn:Hf; cbn;
      try (destruct (sessions_retrieve env sid) as [s|]; cbn; [|discriminate];
           destruct (payment_status s); discriminate).
    destruct (status d) eqn:Hst; cbn; try discriminate; intros _;
      exists sid, d; repeat split; try assumption; congruence.
Qed.

(** X12.  The gate and the submit handler agree: on a table where the
    form route shows the already-submitted page for a session, no submit
    for that session can succeed or write, under any behaviour of the
    store and the provider. *)
Theorem already_submitted_page_means_refused (env env2 : Env)
    (q : option string) (b : SubmitBody) (t : list Consultation) :
  reply (form_handler env q) t = sendFile "already-submitted.html" ->
  body_session_id b = q ->
  table_after (submit_handler env2 b) t = t /\
  reply (submit_handler env2 b) t <> json 200 JSuccess.
Proof.
  intros Hpage Hb.
  destruct (form_already_submitted_inv env q t Hpage)
    as (sid & d & -> & _ & _ & Hf & Hst).
  destruct (submit_refused env2 b t sid d Hb Hf Hst) as (Hsame & Hno & _).
  now split.
Qed.

Lemma already_submitted_page_means_refused_witness :
  table_after (submit_handler (sample_env true true) (sample_body "cs_123"))
    [sample_row "a1" "cs_123" answered 15]
  = [sample_row "a1" "cs_123" answered 15].
Proof.
  apply (already_submitted_page_means_refused (sample_env false false)
           (sample_env true true) (Some "cs_123") (sample_body "cs_123")
           [sample_row "a1" "cs_123" answered 15]); reflexivity.
Defined.

(** ** Runs of the respond handler *)

Lemma respond_saves (env : Env) (b : RespondBody) (t : list Consultation)
    (rid text : string) (c : Consultation) :
  body_id b = Some rid -> body_response b = Some text ->
  truthy (Some rid) = true -> truthy (Some text) = true ->
  select_error env = false -> update_error env = false ->
  filter (eq_filter id rid) t = [c] ->
  table_after (respond_handler env true b) t
    = map (fun x => if eq_filter id rid x then respond_patch env text x else x) t /\
  mails (trace_of (respond_handler env true b) t) = [respond_mail env c text] /\
  exists msg,
    reply (respond_handler env true b) t
    = json 200 (JResponded true
                  (send_returned env (respond_mail env c text)) msg).
Proof.
  intros Hid Hresp Tid Ttext Hsel Hupd Hf.
  unfold_run; unfold respond_handler, requireAdmin, supabase_select_single.
  rewrite Hid, Hresp, Tid, Ttext. cbn. rewrite Hsel, Hf. cbn.
  unfold supabase_update, send_returned. cbn. rewrite Hupd. cbn.
  destruct (emails_send env (respond_mail env c text)); cbn;
    (split; [reflexivity|]; split; [reflexivity|]; eexists; reflexivity).
Qed.

Lemma respond_not_found (env : Env) (b : RespondBody) (t : list Consultation)
    (rid : string) :
  body_id b = Some rid -> truthy (Some rid) = true ->
  truthy (body_response b) = true ->
  select_error env = true \/ (forall x, In x t -> id x <> rid) ->
  run (respond_handler env true b) t
  = (json 404 (JError "Consultation introuvable."),
     {| consultations := t; trace := [SupabaseSelect "id" rid] |}).
Proof.
  intros Hid Tid Tresp Hnone.
  unfold run, respond_handler, requireAdmin, supabase_select_single.
  rewrite Tresp, Hid, Tid. cbn.
  destruct (select_error env); [reflexivity|].
  destruct Hnone as [Hf|Habs]; [discriminate Hf|].
  now rewrite (filter_absent id _ _ Habs).
Qed.

Lemma respond_patched_rows (env : Env) (rid text : string)
    (t : list Consultation) (x : Consultation) :
  In x (map (fun y => if eq_filter id rid y
                      then respond_patch env text y else y) t) ->
  id x = rid ->
  status x = answered /\ response x = Some text /\
  answered_at x = Some (toISOString env).
Proof.
  intros Hin Hx. apply in_map_iff in Hin. destruct Hin as (y & Hy & _).
  destruct (eq_filter id rid y) eqn:Hf; subst x.
  - repeat split.
  - apply eq_filter_false in Hf. contradiction.
Qed.

(** X13.  Answering again replaces the answer.  After a first respond the
    row holds the first response text and answer time; after a second
    respond on the same row every row with that id holds the second
    response text and the second answer time, with status answered, and
    the table is exactly the one that the second respond alone would have
    given.  The second respond attempts one mail again, to the email of
    the row, with the second text in the body. *)
Theorem respond_again_overwrites (env1 env2 : Env) (b1 b2 : RespondBody)
    (t : list Consultation) (rid text1 text2 : string) (c : Consultation) :
  body_id b1 = Some rid -> body_response b1 = Some text1 ->
  body_id b2 = Some rid -> body_response b2 = Some text2 ->
  truthy (Some rid) = true ->
  truthy (Some text1) = true -> truthy (Some text2) = true ->
  select_error env1 = false -> update_error env1 = false ->
  select_error env2 = false -> update_error env2 = false ->
  store_ok t -> In c t -> id c = rid ->
  let t1 := table_after (respond_handler env1 true b1) t in
  let t2 := table_after (respond_handler env2 true b2) t1 in
  t2 = table_after (respond_handler env2 true b2) t /\
  (exists c1, In c1 t1 /\ id c1 = rid /\ status c1 = answered /\
              response c1 = Some text1 /\
              answered_at c1 = Some (toISOString env1)) /\
  (exists c2, In c2 t2 /\ id c2 = rid /\ status c2 = answered /\
              response c2 = Some text2 /\
              answered_at c2 = Some (toISOString env2)) /\
  (forall x, In x t2 -> id x = rid ->
             status x = answered /\ response x = Some text2 /\
             answered_at x = Some (toISOString env2)) /\
  map id t2 = map id t /\
  (exists m, mails (trace_of (respond_handler env2 true b2) t1) = [m] /\
             mail_from m = EMAIL_FROM env2 /\ mail_to m = email c /\
             mail_html m = buildResponseEmail c text2).
Proof.
  intros Hid1 Hr1 Hid2 Hr2 Tid T1 T2 Hsel1 Hupd1 Hsel2 Hupd2 Hok Hin Hc t1 t2.
  assert (Hf : filter (eq_filter id rid) t = [c])
    by (rewrite <- Hc; now apply id_lookup_found).
  destruct (respond_saves env1 b1 t rid text1 c Hid1 Hr1 Tid T1 Hsel1 Hupd1 Hf)
    as (Ht1 & _ & _).
  fold t1 in Ht1.
  assert (Hf1 : filter (eq_filter id rid) t1 = [respond_patch env1 text1 c]).
  { rewrite Ht1, (filter_patched id) by reflexivity. now rewrite Hf. }
  destruct (respond_saves env2 b2 t1 rid text2 _ Hid2 Hr2 Tid T2 Hsel2 Hupd2 Hf1)
    as (Ht2 & Hmail & _).
  fold t2 in Ht2.
  destruct (respond_saves env2 b2 t rid text2 c Hid2 Hr2 Tid T2 Hsel2 Hupd2 Hf)
    as (Ht2' & _ & _).
  assert (Hsame : t2 = table_after (respond_handler env2 true b2) t).
  { rewrite Ht2, Ht2', Ht1, map_map. apply map_ext. intros x.
    destruct (eq_filter id rid x) eqn:Hx; [|now rewrite Hx].
    assert (Hx' : eq_filter id rid (respond_patch env1 text1 x) = true)
      by (apply eq_filter_true; now apply eq_filter_true in Hx).
    now rewrite Hx'. }
  assert (Hcc : eq_filter id rid c = true) by now apply eq_filter_true.
  assert (Hrows : forall x, In x t2 -> id x = rid ->
            status x = answered /\ response x = Some text2 /\
            answered_at x = Some (toISOString env2)).
  { intros x Hx. rewrite Hsame, Ht2' in Hx.
    now apply (respond_patched_rows env2 rid text2 t x). }
  assert (Hin2 : In (respond_patch env2 text2 c) t2).
  { rewrite Hsame, Ht2'. apply in_map_iff. exists c. split; [|exact Hin].
    now rewrite Hcc. }
  assert (Hin1 : In (respond_patch env1 text1 c) t1).
  { rewrite Ht1. apply in_map_iff. exists c. split; [|exact Hin].
    now rewrite Hcc. }
  split; [exact Hsame|].
  split.
  { exists (respond_patch env1 text1 c). split; [exact Hin1|].
    split; [exact Hc|].
    apply (respond_patched_rows env1 rid text1 t); [|exact Hc].
    now rewrite <- Ht1. }
  split.
  { exists (respond_patch env2 text2 c). split; [exact Hin2|].
    split; [exact Hc|]. now apply Hrows. }
  split; [exact Hrows|].
  split.
  { rewrite Hsame, Ht2', map_map. apply map_ext. intros x.
    now destruct (eq_filter id rid x). }
  exists (respond_mail env2 (respond_patch env1 text1 c) text2).
  split; [exact Hmail|]. repeat split.
Qed.

Lemma respond_again_overwrites_witness :
  exists c2,
    In c2 (table_after (respond_handler (sample_env false false) true
                          (sample_answer "a1"))
             (table_after (respond_handler (sample_env false true) true
                             {| body_id := Some "a1";
                                body_response := Some "Non." |})
                [sample_row "a1" "cs_1" answered 15])) /\
    id c2 = "a1" /\ status c2 = answered /\
    response c2 = Some "Voici ma guidance" /\
    answered_at c2 = Some "2026-01-01T10:00:00.000Z".
Proof.
  assert (Hok : store_ok [sample_row "a1" "cs_1" answered 15]) by table_ok.
  apply (respond_again_overwrites (sample_env false true)
           (sample_env false false)
           {| body_id := Some "a1"; body_response := Some "Non." |}
           (sample_answer "a1") [sample_row "a1" "cs_1" answered 15]
           "a1" "Non." "Voici ma guidance" (sample_row "a1" "cs_1" answered 15)
           eq_refl eq_refl eq_refl eq_refl eq_refl eq_refl eq_refl
           eq_refl eq_refl eq_refl eq_refl Hok (or_introl eq_refl) eq_refl).
Defined.

(** X14.  A lookup that fails is answered like an unknown id: when the
    store errors on the lookup, or no row has the id, a complete respond
    request gets 404, and nothing is updated and no mail is attempted;
    the lookup is the only effect. *)
Theorem respond_without_row_is_404 (env : Env) (b : RespondBody)
    (t : list Consultation) (rid : string) :
  body_id b = Some rid -> truthy (Some rid) = true ->
  truthy (body_response b) = true ->
  select_error env = true \/ (forall x, In x t -> id x <> rid) ->
  reply (respond_handler env true b) t
    = json 404 (JError "Consultation introuvable.") /\
  table_after (respond_handler env true b) t = t /\
  trace_of (respond_handler env true b) t = [SupabaseSelect "id" rid].
Proof.
  intros Hid Tid Tresp Hnone. unfold_obs.
  rewrite (respond_not_found env b t rid Hid Tid Tresp Hnone).
  repeat split.
Qed.

Lemma respond_without_row_is_404_witness :
  reply (respond_handler
           {| constructEvent := constructEvent (sample_env false false);
              sessions_retrieve := sessions_retrieve (sample_env false false);
              emails_send := emails_send (sample_env false false);
              select_error := true; insert_error := false;
              update_error := false; delete_error := false;
              uuid_generate_v4 := "b2"; NOW := "2026-01-01T09:00:00Z";
              toISOString := "2026-01-01T10:00:00.000Z";
              EMAIL_FROM := "Aura Intuitive <noreply@auraintuitive.com>" |}
           true (sample_answer "a1"))
        [sample_row "a1" "cs_1" submitted 15]
  = json 404 (JError "Consultation introuvable.").
Proof.
  apply (respond_without_row_is_404 _ (sample_answer "a1")
           [sample_row "a1" "cs_1" submitted 15] "a1" eq_refl eq_refl eq_refl).
  now left.
Defined.

(** ** Deleting *)

(** X15.  Deleting is idempotent and final: serving the same delete
    request twice leaves the table as one did; after an authorised delete
    on a store that reports no error no row has the id any more, and a
    respond request for that id can only be answered 400 or 404 and
    writes nothing. *)
Theorem delete_is_final (env env2 : Env) (admin : bool) (pid : string)
    (t : list Consultation) (b : RespondBody) :
  table_after (delete_handler env admin pid)
    (table_after (delete_handler env admin pid) t)
  = table_after (delete_handler env admin pid) t /\
  (admin = true -> delete_error env = false ->
   (forall x, In x (table_after (delete_handler env admin pid) t) ->
      id x <> pid) /\
   (body_id b = Some pid ->
    (reply (respond_handler env2 true b)
       (table_after (delete_handler env admin pid) t)
     = json 400 (JError "Champs manquants.") \/
     reply (respond_handler env2 true b)
       (table_after (delete_handler env admin pid) t)
     = json 404 (JError "Consultation introuvable.")) /\
    table_after (respond_handler env2 true b)
      (table_after (delete_handler env admin pid) t)
    = table_after (delete_handler env admin pid) t)).
Proof.
  split.
  - rewrite !delete_table.
    destruct (admin && negb (delete_error env));
      [apply filter_other_twice | reflexivity].
  - intros -> Hdel. rewrite delete_table, Hdel. cbn [andb negb].
    assert (Hgone : forall x, In x (filter (other_row pid) t) -> id x <> pid).
    { intros x Hx. apply filter_In in Hx. now apply other_row_true. }
    split; [exact Hgone|]. intros Hid.
    destruct (truthy (Some pid)) eqn:Tid;
      [destruct (truthy (body_response b)) eqn:Tresp|].
    + unfold_obs.
      rewrite (respond_not_found env2 b _ pid Hid Tid Tresp (or_intror Hgone)).
      split; [now right | reflexivity].
    + unfold_run; unfold respond_handler, requireAdmin.
      rewrite Tresp, Hid, Tid. cbn. split; [now left | reflexivity].
    + unfold_run; unfold respond_handler, requireAdmin.
      rewrite Hid, Tid. cbn. split; [now left | reflexivity].
Qed.

Lemma delete_is_final_witness :
  reply (respond_handler (sample_env false false) true (sample_answer "a1"))
        (table_after (delete_handler (sample_env false false) true "a1")
           [sample_row "a1" "cs_1" submitted 15;
            sample_row "a2" "cs_2" answered 5])
  = json 400 (JError "Champs manquants.") \/
  reply (respond_handler (sample_env false false) true (sample_answer "a1"))
        (table_after (delete_handler (sample_env false false) true "a1")
           [sample_row "a1" "cs_1" submitted 15;
            sample_row "a2" "cs_2" answered 5])
  = json 404 (JError "Consultation introuvable.").
Proof.
  apply (proj2 (delete_is_final (sample_env false false)
                  (sample_env false false) true "a1"
                  [sample_row "a1" "cs_1" submitted 15;
                   sample_row "a2" "cs_2" answered 5] (sample_answer "a1"))
           eq_refl eq_refl).
  reflexivity.
Defined.

(** ** What a request can do: table, mails, provider calls *)

Lemma truthy_some (o : option string) :
  truthy o = true -> exists v, o = Some v.
Proof. destruct o as [v|]; [now exists v | discriminate]. Qed.

(** The fallback block, run right after the lookup of the submit handler. *)
Lemma fallback_world (env : Env) (b : SubmitBody) (sid : string)
    (t : list Consultation) :
  let w := snd (runState (submit_fallback env b sid)
                  {| consultations := t;
                     trace := [SupabaseSelect "stripe_session_id" sid] |}) in
  mails (trace w) = [] /\ provider_calls (trace w) = [sid] /\
  (consultations w = t \/
   exists session,
     violates_unique t (new_row env (fallback_values env b sid session)) = false /\
     consultations w
     = (t ++ [new_row env (fallback_values env b sid session)])%list).
Proof.
  unfold submit_fallback. cbn.
  destruct (sessions_retrieve env sid) as [s|]; cbn;
    [|repeat split; now left].
  destruct (payment_status s); cbn; try (repeat split; now left).
  unfold supabase_insert. cbn.
  destruct (insert_error env || violates_unique t _) eqn:E; cbn;
    [repeat split; now left|].
  apply orb_false_iff in E. destruct E as [_ E].
  split; [reflexivity|]. split; [reflexivity|].
  right. exists s. split; [exact E | reflexivity].
Qed.

Lemma submit_world_of_fallback (env : Env) (b : SubmitBody) (sid : string)
    (t : list Consultation) :
  required_fields b -> body_session_id b = Some sid ->
  select_error env = true \/
    (forall c, filter (eq_filter stripe_session_id sid) t <> [c]) ->
  submit_outcome env b t
    (snd (runState (submit_fallback env b sid)
            {| consultations := t;
               trace := [SupabaseSelect "stripe_session_id" sid] |})).
Proof.
  intros Hreq Hsid Hnone.
  destruct (fallback_world env b sid t) as (Hm & Hp & Ht).
  split; [exact Hm|]. split.
  - right. exists sid. split; [exact Hsid|]. split; [exact Hp | exact Hnone].
  - destruct Ht as [Ht|(session & Hu & Ht)]; [now left|].
    right; left. exists sid, session.
    split; [exact Hreq|]. split; [exact Hu | exact Ht].
Qed.

Lemma submit_world (env : Env) (b : SubmitBody) (t : list Consultation) :
  submit_outcome env b t (snd (run (submit_handler env b) t)).
Proof.
  unfold run, submit_handler, supabase_select_single.
  destruct (truthy (body_session_id b)) eqn:H1;
    [destruct (truthy (body_name b)) eqn:H2;
     [destruct (truthy (body_email b)) eqn:H3;
      [destruct (truthy (body_message b)) eqn:H4|]|]|];
    cbn; try (unfold submit_outcome; repeat split; now left).
  assert (Hreq : required_fields b) by (repeat split; assumption).
  destruct (truthy_some _ H1) as [sid Hsid].
  pose proof (submit_world_of_fallback env b sid t Hreq Hsid) as Hfall.
  replace (match body_session_id b with Some s => s | None => "" end)
    with sid by now rewrite Hsid.
  destruct (select_error env) eqn:Hsel; cbn.
  - apply Hfall. now left.
  - destruct (filter (eq_filter stripe_session_id sid) t)
      as [|c [|c' rest]] eqn:Hf; cbn.
    + apply Hfall. right. intros c. discriminate.
    + destruct (status c) eqn:Hst; cbn;
        try (unfold submit_outcome; repeat split; now left).
      unfold supabase_update. cbn.
      destruct (update_error env); cbn;
        [unfold submit_outcome; repeat split; now left|].
      split; [reflexivity|]. split; [now left|].
      right; right. exists sid, c.
      split; [exact Hreq|]. split; [exact Hf|]. split; [exact Hst|reflexivity].
    + apply Hfall. right. intros c0. discriminate.
Qed.

Lemma webhook_world (env : Env) (req : WebhookRequest) (t : list Consultation) :
  let w := snd (run (webhookHandler env req) t) in
  mails (trace w) = [] /\ provider_calls (trace w) = [] /\
  (consultations w = t \/
   exists session,
     violates_unique t (new_row env (webhook_values session)) = false /\
     consultations w = (t ++ [new_row env (webhook_values session)])%list).
Proof.
  unfold run, webhookHandler.
  destruct (truthy (stripe_signature req)); cbn; [|repeat split; now left].
  destruct (constructEvent env _ _) as [m|ev]; cbn; [repeat split; now left|].
  destruct (String.eqb (event_type ev) "checkout.session.completed");
    cbn; [|repeat split; now left].
  unfold supabase_insert. cbn.
  destruct (insert_error env || violates_unique t _) eqn:E; cbn;
    [repeat split; now left|].
  apply orb_false_iff in E. destruct E as [_ E].
  split; [reflexivity|]. split; [reflexivity|].
  right. exists (event_data_object ev). split; [exact E | reflexivity].
Qed.

Lemma form_world (env : Env) (q : option string) (t : list Consultation) :
  let w := snd (run (form_handler env q) t) in
  mails (trace w) = [] /\ consultations w = t /\
  (provider_calls (trace w) = [] \/
   exists sid,
     q = Some sid /\ provider_calls (trace w) = [sid] /\
     (select_error env = true \/
      forall c, filter (eq_filter stripe_session_id sid) t <> [c])).
Proof.
  unfold run, form_handler, supabase_select_single.
  destruct (truthy q) eqn:Hq; cbn; [|repeat split; now left].
  destruct (truthy_some _ Hq) as [sid ->]. cbn.
  assert (Hask : forall reason : select_error env = true \/
                   (forall c, filter (eq_filter stripe_session_id sid) t <> [c]),
    exists sid0, Some sid = Some sid0 /\ [sid] = [sid0] /\
      (select_error env = true \/
       forall c, filter (eq_filter stripe_session_id sid0) t <> [c]))
    by (intros reason; exists sid; repeat split; exact reason).
  destruct (select_error env) eqn:Hsel; cbn.
  - destruct (sessions_retrieve env sid) as [s|]; cbn;
      [destruct (payment_status s); cbn|];
      (split; [reflexivity|]; split; [reflexivity|]; right; apply Hask; now left).
  - destruct (filter (eq_filter stripe_session_id sid) t)
      as [|d [|d' rest]] eqn:Hf; cbn.
    + destruct (sessions_retrieve env sid) as [s|]; cbn;
        [destruct (payment_status s); cbn|];
        (split; [reflexivity|]; split; [reflexivity|]; right; apply Hask;
         right; intros c; discriminate).
    + destruct (status d); cbn; repeat split; now left.
    + destruct (sessions_retrieve env sid) as [s|]; cbn;
        [destruct (payment_status s); cbn|];
        (split; [reflexivity|]; split; [reflexivity|]; right; apply Hask;
         right; intros c; discriminate).
Qed.

Lemma test_world (env : Env) (date_now error_message : string)
    (t : list Consultation) :
  let w := snd (run (test_handler env date_now error_message) t) in
  mails (trace w) = [] /\ provider_calls (trace w) = [] /\
  (consultations w = t \/
   (violates_unique t (new_row env (test_values date_now)) = false /\
    consultations w = (t ++ [new_row env (test_values date_now)])%list)).
Proof.
  unfold run, test_handler, supabase_insert. cbn.
  destruct (insert_error env || violates_unique t _) eqn:E; cbn;
    [repeat split; now left|].
  apply orb_false_iff in E. destruct E as [_ E].
  split; [reflexivity|]. split; [reflexivity|]. right.
  split; [exact E | reflexivity].
Qed.

Lemma read_only_worlds (env : Env) (admin : bool) (t : list Consultation) :
  (mails (trace (snd (run (stats_handler env admin) t))) = [] /\
   provider_calls (trace (snd (run (stats_handler env admin) t))) = [] /\
   consultations (snd (run (stats_handler env admin) t)) = t) /\
  (mails (trace (snd (run (list_handler env admin) t))) = [] /\
   provider_calls (trace (snd (run (list_handler env admin) t))) = [] /\
   consultations (snd (run (list_handler env admin) t)) = t).
Proof.
  unfold run, stats_handler, list_handler, requireAdmin,
    supabase_select_in, supabase_select_in_ordered.
  destruct admin; cbn; [|repeat split].
  destruct (select_error env); cbn; repeat split.
Qed.

Lemma respond_world (env : Env) (admin : bool) (b : RespondBody)
    (t : list Consultation) :
  let w := snd (run (respond_handler env admin b) t) in
  provider_calls (trace w) = [] /\
  ((mails (trace w) = [] /\ consultations w = t) \/
   exists rid text c,
     admin = true /\ body_response b = Some text /\
     truthy (Some text) = true /\
     filter (eq_filter id rid) t = [c] /\
     mails (trace w) = [respond_mail env c text] /\
     consultations w
     = map (fun x => if eq_filter id rid x
                     then respond_patch env text x else x) t /\
     body_id b = Some rid /\
     exists outcome last,
       trace w = [SupabaseSelect "id" rid; SupabaseUpdate "id" rid true;
                  ResendSend (respond_mail env c text) outcome; last]).
Proof.
  unfold run, respond_handler, requireAdmin, supabase_select_single.
  destruct admin; cbn; [|split; [reflexivity | now left]].
  destruct (truthy (body_id b)) eqn:Tid; cbn;
    [|split; [reflexivity | now left]].
  destruct (truthy (body_response b)) eqn:Tresp; cbn;
    [|split; [reflexivity | now left]].
  destruct (truthy_some _ Tid) as [rid Hid].
  destruct (truthy_some _ Tresp) as [text Hresp].
  rewrite Hid, Hresp in *. cbn.
  destruct (select_error env); cbn; [split; [reflexivity | now left]|].
  destruct (filter (eq_filter id rid) t) as [|c [|c' rest]] eqn:Hf; cbn;
    try (split; [reflexivity | now left]).
  unfold supabase_update. cbn.
  destruct (update_error env); cbn; [split; [reflexivity | now left]|].
  destruct (emails_send env (respond_mail env c text)); cbn;
    (split; [reflexivity|]; right; exists rid, text, c;
     repeat (split; [first [assumption | reflexivity]|]);
     eexists; eexists; reflexivity).
Qed.

Lemma delete_world (env : Env) (admin : bool) (pid : string)
    (t : list Consultation) :
  let w := snd (run (delete_handler env admin pid) t) in
  mails (trace w) = [] /\ provider_calls (trace w) = [].
Proof.
  unfold run, delete_handler, requireAdmin, supabase_delete.
  destruct admin; cbn; [|now split].
  destruct (delete_error env); cbn; now split.
Qed.

(** ** Mails and provider calls *)

(** X16.  Whatever the request and whatever the collaborators do, at most
    one mail is attempted, and only by an authorised respond request that
    carries an id and a response text.  The mail goes from the configured
    sender to the email of the one row of the table that has the id of the
    request, the update of that row is in the trace before the send, and
    the table the request leaves holds a row with that id, status
    answered, the response text of the request and the answer time.  No
    other route ever mails. *)
Theorem mail_only_after_saved_response (env : Env) (r : Route)
    (t : list Consultation) :
  mails (trace (world_after env r t)) = [] \/
  exists b rid text c m,
    r = RRespond true b /\
    body_id b = Some rid /\ body_response b = Some text /\
    In c t /\ id c = rid /\
    (forall x, In x t -> id x = rid -> x = c) /\
    mails (trace (world_after env r t)) = [m] /\
    mail_from m = EMAIL_FROM env /\ mail_to m = email c /\
    mail_html m = buildResponseEmail c text /\
    (exists outcome last,
       trace (world_after env r t)
       = [SupabaseSelect "id" rid; SupabaseUpdate "id" rid true;
          ResendSend m outcome; last]) /\
    (exists c', In c' (consultations (world_after env r t)) /\
                id c' = rid /\ status c' = answered /\
                response c' = Some text /\
                answered_at c' = Some (toISOString env)) /\
    (forall x, In x (consultations (world_after env r t)) -> id x = rid ->
               status x = answered /\ response x = Some text /\
               answered_at x = Some (toISOString env)).
Proof.
  destruct r as [req|q|b|now msg|admin|admin|admin b|admin pid|];
    unfold world_after.
  - left. apply webhook_world.
  - left. apply form_world.
  - left. apply submit_world.
  - left. apply test_world.
  - left. apply (read_only_worlds env admin t).
  - left. apply (read_only_worlds env admin t).
  - destruct (respond_world env admin b t)
      as (_ & [[Hm _]|(rid & text & c & -> & Hresp & _ & Hf & Hm & Ht
                       & Hid & Htrace)]);
      [now left|].
    right. exists b, rid, text, c, (respond_mail env c text).
    destruct (filter_singleton_in id rid t c Hf) as [Hin Hc].
    assert (Hcc : eq_filter id rid c = true) by now apply eq_filter_true.
    split; [reflexivity|]. split; [exact Hid|]. split; [exact Hresp|].
    split; [exact Hin|]. split; [exact Hc|].
    split.
    { intros x Hx Hxid.
      assert (Hxf : In x (filter (eq_filter id rid) t)).
      { apply filter_In. split; [exact Hx | now apply eq_filter_true]. }
      rewrite Hf in Hxf. destruct Hxf as [<-|[]]. reflexivity. }
    split; [exact Hm|].
    split; [reflexivity|]. split; [reflexivity|]. split; [reflexivity|].
    split; [exact Htrace|].
    split.
    { exists (respond_patch env text c). split.
      - rewrite Ht. apply in_map_iff. exists c. split; [|exact Hin].
        now rewrite Hcc.
      - repeat split. exact Hc. }
    intros x Hx. rewrite Ht in Hx.
    now apply (respond_patched_rows env rid text t x).
  - left. apply delete_world.
  - left. reflexivity.
Qed.

(** X17.  The payment provider is asked at most once per request, only by
    the form route and the submit handler, about the session id of the
    request, and only when the local lookup gave no single row (the store
    erred, or no row or several rows have that session id). *)
Theorem provider_asked_only_without_local_row (env : Env) (r : Route)
    (t : list Consultation) :
  provider_calls (trace (world_after env r t)) = [] \/
  exists sid,
    provider_calls (trace (world_after env r t)) = [sid] /\
    (r = RForm (Some sid) \/
     exists b, r = RSubmit b /\ body_session_id b = Some sid) /\
    (select_error env = true \/
     forall c, filter (eq_filter stripe_session_id sid) t <> [c]).
Proof.
  destruct r as [req|q|b|now msg|admin|admin|admin b|admin pid|];
    unfold world_after.
  - left. apply webhook_world.
  - destruct (form_world env q t) as (_ & _ & [Hp|(sid & -> & Hp & Hwhy)]);
      [now left|].
    right. exists sid. split; [exact Hp|]. split; [now left | exact Hwhy].
  - destruct (submit_world env b t) as (_ & [Hp|(sid & Hb & Hp & Hwhy)] & _);
      [now left|].
    right. exists sid. split; [exact Hp|]. split; [|exact Hwhy].
    right. now exists b.
  - left. apply test_world.
  - left. apply (read_only_worlds env admin t).
  - left. apply (read_only_worlds env admin t).
  - left. apply respond_world.
  - left. apply delete_world.
  - left. reflexivity.
Qed.

(** ** What a request can do to the table *)

Lemma route_table_cases (env : Env) (r : Route) (t : list Consultation) :
  consultations (world_after env r t) = t \/
  (exists v,
     inserted env v /\ violates_unique t (new_row env v) = false /\
     consultations (world_after env r t) = (t ++ [new_row env v])%list) \/
  (exists b sid c,
     required_fields b /\
     filter (eq_filter stripe_session_id sid) t = [c] /\ status c = paid /\
     consultations (world_after env r t)
     = map (fun x => if eq_filter stripe_session_id sid x
                     then submit_patch env b x else x) t) \/
  (exists rid text,
     truthy (Some text) = true /\
     consultations (world_after env r t)
     = map (fun x => if eq_filter id rid x
                     then respond_patch env text x else x) t) \/
  (exists pid,
     r = RDelete true pid /\
     consultations (world_after env r t) = filter (other_row pid) t).
Proof.
  destruct r as [req|q|b|now msg|admin|admin|admin b|admin pid|];
    unfold world_after.
  - destruct (webhook_world env req t) as (_ & _ & [Ht|(s & Hu & Ht)]);
      [now left|].
    right; left. exists (webhook_values s).
    split; [constructor|]. now split.
  - left. apply form_world.
  - destruct (submit_world env b t)
      as (_ & _ & [Ht|[(sid & s & Hreq & Hu & Ht)|(sid & c & Hreq & Hf & Hst & Ht)]]).
    + now left.
    + right; left. exists (fallback_values env b sid s).
      split; [now constructor|]. now split.
    + right; right; left. exists b, sid, c.
      split; [exact Hreq|]. split; [exact Hf|]. split; [exact Hst | exact Ht].
  - destruct (test_world env now msg t) as (_ & _ & [Ht|[Hu Ht]]);
      [now left|].
    right; left. exists (test_values now). split; [constructor|]. now split.
  - left. apply (read_only_worlds env admin t).
  - left. apply (read_only_worlds env admin t).
  - destruct (respond_world env admin b t)
      as (_ & [[_ Ht]|(rid & text & c & _ & _ & Ttext & _ & _ & Ht & _)]);
      [now left|].
    right; right; right; left. exists rid, text. now split.
  - pose proof (delete_table env admin pid t) as Ht.
    unfold table_after in Ht. rewrite Ht.
    destruct admin; [|now left].
    destruct (delete_error env); [now left|].
    right; right; right; right. exists pid. now split.
  - now left.
Qed.

(** ** Properties every row keeps, through every history *)

Section RowInvariant.

Variable P : Consultation -> Prop.

Hypothesis P_inserted :
  forall env v, inserted env v -> P (new_row env v).
Hypothesis P_submit :
  forall env b c,
    required_fields b -> status c = paid -> P c -> P (submit_patch env b c).
Hypothesis P_respond :
  forall env text c,
    truthy (Some text) = true -> P c -> P (respond_patch env text c).

Lemma route_keeps (env : Env) (r : Route) (t : list Consultation) :
  Forall P t -> Forall P (consultations (world_after env r t)).
Proof.
  intros Hall.
  destruct (route_table_cases env r t)
    as [->|[(v & Hv & _ & ->)|[(b & sid & c & Hreq & Hf & Hst & ->)
       |[(rid & text & Ttext & ->)|(pid & _ & ->)]]]].
  - exact Hall.
  - apply Forall_app. split; [exact Hall|].
    constructor; [now apply P_inserted | constructor].
  - apply Forall_forall. intros x' Hx'. apply in_map_iff in Hx'.
    destruct Hx' as (x & <- & Hx).
    rewrite Forall_forall in Hall.
    destruct (eq_filter stripe_session_id sid x) eqn:Hm; [|now apply Hall].
    assert (Hxc : In x (filter (eq_filter stripe_session_id sid) t))
      by (apply filter_In; now split).
    rewrite Hf in Hxc. destruct Hxc as [<-|[]].
    apply P_submit; [exact Hreq | exact Hst | now apply Hall].
  - apply Forall_forall. intros x' Hx'. apply in_map_iff in Hx'.
    destruct Hx' as (x & <- & Hx).
    rewrite Forall_forall in Hall.
    destruct (eq_filter id rid x); [|now apply Hall].
    apply P_respond; [exact Ttext | now apply Hall].
  - apply Forall_forall. intros x Hx. apply filter_In in Hx.
    rewrite Forall_forall in Hall. now apply Hall.
Qed.

Lemma replay_keeps (history : list (Env * Route)) (t : list Consultation) :
  Forall P t -> Forall P (replay history t).
Proof.
  revert t. induction history as [|[env r] history IH]; intros t Hall; simpl.
  - exact Hall.
  - apply IH. now apply route_keeps.
Qed.

End RowInvariant.

Lemma or_else_filled (a b : option string) :
  null_or_filled b -> null_or_filled (or_else a b).
Proof.
  intros Hb. unfold or_else. destruct (truthy a) eqn:Ha; [now right | exact Hb].
Qed.

Lemma label_of_cents (cents : Z) :
  ((inject_Z 10 <= div100 cents)%Q /\
   webhook_service cents = "Consultation Ressenti") \/
  ((div100 cents < inject_Z 10)%Q /\
   webhook_service cents = "Réponse Oui / Non").
Proof.
  unfold webhook_service.
  destruct (Z.geb_spec cents 1000) as [Hge|Hlt]; [left|right];
    (split; [|reflexivity]).
  - unfold Qle, div100. simpl. lia.
  - unfold Qlt, div100. simpl. lia.
Qed.

(** X18.  Rows are never lost or re-priced: through any history of
    requests, under any behaviour of the collaborators, a row of the table
    is still there, with the id, session id, service, amount, customer
    email and creation time it had and a status that has not moved back,
    unless the history holds an authorised delete request for its id. *)
Theorem rows_leave_only_by_delete (history : list (Env * Route))
    (t : list Consultation) (c : Consultation) :
  In c t ->
  (forall env pid, In (env, RDelete true pid) history -> pid <> id c) ->
  exists c',
    In c' (replay history t) /\ same_payment_data c c' /\
    (status_rank (status c) <= status_rank (status c'))%nat.
Proof.
  revert t c. induction history as [|[env r] history IH];
    intros t c Hin Hnodel; simpl.
  - exists c. split; [exact Hin|]. split; [repeat split | lia].
  - assert (Hstep : exists c1,
              In c1 (consultations (world_after env r t)) /\
              same_payment_data c c1 /\
              (status_rank (status c) <= status_rank (status c1))%nat).
    { destruct (route_table_cases env r t)
        as [->|[(v & _ & _ & ->)|[(b & sid & c0 & _ & Hf & Hst & ->)
           |[(rid & text & _ & ->)|(pid & -> & ->)]]]].
      - exists c. split; [exact Hin|]. split; [repeat split | lia].
      - exists c. split; [apply in_or_app; now left|].
        split; [repeat split | lia].
      - eexists. split; [apply in_map; exact Hin|].
        destruct (eq_filter stripe_session_id sid c) eqn:Hm.
        + split; [repeat split|]. apply rank_submit_patch.
          assert (Hcc : In c (filter (eq_filter stripe_session_id sid) t))
            by (apply filter_In; now split).
          rewrite Hf in Hcc. destruct Hcc as [<-|[]]. exact Hst.
        + split; [repeat split | lia].
      - eexists. split; [apply in_map; exact Hin|].
        destruct (eq_filter id rid c).
        + split; [repeat split | apply rank_respond_patch].
        + split; [repeat split | lia].
      - exists c. split; [|split; [repeat split | lia]].
        apply filter_In. split; [exact Hin|]. apply other_row_true.
        intros Heq. apply (Hnodel env pid); [now left | now symmetry]. }
    destruct Hstep as (c1 & Hin1 & Hsame1 & Hrank1).
    destruct (IH _ c1 Hin1) as (c' & Hin' & Hsame' & Hrank').
    { intros env' pid Hd. destruct Hsame1 as (Hid & _). rewrite Hid.
      apply (Hnodel env' pid). now right. }
    exists c'. split; [exact Hin'|]. split; [|lia].
    destruct Hsame1 as (A1 & A2 & A3 & A4 & A5 & A6).
    destruct Hsame' as (B1 & B2 & B3 & B4 & B5 & B6).
    repeat split; congruence.
Qed.

Lemma rows_leave_only_by_delete_witness :
  exists c',
    In c' (replay [(sample_env false false, RSubmit (sample_body "cs_1"));
                   (sample_env false false, RDelete true "a9");
                   (sample_env false true, RRespond true (sample_answer "a1"))]
             [sample_row "a1" "cs_1" paid 15]) /\
    same_payment_data (sample_row "a1" "cs_1" paid 15) c'.
Proof.
  destruct (rows_leave_only_by_delete
              [(sample_env false false, RSubmit (sample_body "cs_1"));
               (sample_env false false, RDelete true "a9");
               (sample_env false true, RRespond true (sample_answer "a1"))]
              [sample_row "a1" "cs_1" paid 15]
              (sample_row "a1" "cs_1" paid 15) (or_introl eq_refl))
    as (c' & Hin & Hsame & _).
  - intros env pid [H|[H|[H|[]]]]; inversion H; subst. discriminate.
  - exists c'. split; [exact Hin | exact Hsame].
Defined.

(** ** Three invariants of the table *)

Lemma route_keeps_keys (env : Env) (r : Route) (t : list Consultation) :
  store_ok t -> store_ok (consultations (world_after env r t)).
Proof.
  intros Hok.
  destruct (route_table_cases env r t)
    as [->|[(v & _ & Hu & ->)|[(b & sid & c & _ & _ & _ & ->)
       |[(rid & text & _ & ->)|(pid & _ & ->)]]]].
  - exact Hok.
  - now apply store_ok_snoc.
  - now apply store_ok_patch.
  - now apply store_ok_patch.
  - destruct Hok as [H1 H2]. split; now apply NoDup_column_filter.
Qed.

(** X19.  No history of requests, whatever the collaborators answer, ever
    produces a table with two rows of the same id or of the same payment
    session: starting from the empty table the key constraints always
    hold. *)
Theorem keys_stay_unique (history : list (Env * Route)) :
  store_ok (replay history []).
Proof.
  assert (Hgen : forall t, store_ok t -> store_ok (replay history t)).
  { induction history as [|[env r] history IH]; intros t Hok; simpl.
    - exact Hok.
    - apply IH. now apply route_keeps_keys. }
  apply Hgen. split; constructor.
Qed.

(** X20.  Every row of every reachable table carries the columns of its
    status: a [paid] row has no form data, response or timestamps; a
    [submitted] row has a non-empty name, email and message and its
    submission time, and no response yet; an [answered] row has a
    non-empty response and its answer time.  The optional text columns
    hold null or a non-empty string, never the empty string. *)
Theorem rows_carry_the_columns_of_their_status (history : list (Env * Route)) :
  Forall (fun c => lifecycle_ok c /\ optional_columns_ok c)
         (replay history []).
Proof.
  apply replay_keeps; [| | |constructor].
  - intros env v Hv. destruct Hv as [session|b sid session Hreq|date_now].
    + split; [repeat split|].
      split; [apply or_else_filled; now left | split; now left].
    + destruct Hreq as (R1 & R2 & R3 & R4).
      split; [unfold lifecycle_ok; cbn; repeat split; try assumption;
              discriminate|].
      split; [apply or_else_filled; now right|].
      split; apply or_else_filled; now left.
    + split; [repeat split|]. split; [now right | split; now left].
  - intros env b c (R1 & R2 & R3 & R4) Hst [Hlife (Hce & _ & _)].
    unfold lifecycle_ok in Hlife. rewrite Hst in Hlife.
    destruct Hlife as (_ & _ & _ & _ & _ & _ & Hresp & Hans).
    split; [unfold lifecycle_ok; cbn; repeat split; try assumption;
            discriminate|].
    split; [exact Hce|]. split; apply or_else_filled; now left.
  - intros env text c Ttext [_ Hopt].
    split; [|exact Hopt].
    unfold lifecycle_ok. cbn. split; [exact Ttext | discriminate].
Qed.

(** X21.  The label never disagrees with the amount: in every reachable
    table a row labelled premium has an amount of at least 10 currency
    units and a row of a smaller amount has the standard label. *)
Theorem label_always_matches_amount (history : list (Env * Route)) :
  Forall label_matches_amount (replay history []).
Proof.
  apply replay_keeps; [| | |constructor].
  - intros env v Hv. destruct Hv as [session|b sid session Hreq|date_now].
    + apply label_of_cents.
    + unfold label_matches_amount. cbn.
      rewrite <- (proj1 (service_label_agrees (nullish0 (amount_total session)))).
      apply label_of_cents.
    + left. split; [apply Qle_refl | reflexivity].
  - intros env b c _ _ Hc. exact Hc.
  - intros env text c _ Hc. exact Hc.
Qed.

(** ** The dashboard follows the lifecycle *)

Lemma filter_nil_absent (column : Consultation -> string) (v : string)
    (t : list Consultation) :
  filter (eq_filter column v) t = [] -> forall x, In x t -> column x <> v.
Proof.
  intros Hf x Hx Heq.
  assert (Hin : In x (filter (eq_filter column v) t))
    by (apply filter_In; split; [exact Hx | now apply eq_filter_true]).
  rewrite Hf in Hin. destruct Hin.
Qed.

(** Patching the one row a filter keeps rewrites that row in place. *)
Lemma patched_split (column : Consultation -> string) (v : string)
    (g : Consultation -> Consultation) (t : list Consultation)
    (c : Consultation) :
  filter (eq_filter column v) t = [c] ->
  exists l1 l2,
    t = (l1 ++ c :: l2)%list /\
    map (fun x => if eq_filter column v x then g x else x) t
    = (l1 ++ g c :: l2)%list.
Proof.
  induction t as [|a t IH]; simpl; [discriminate|].
  destruct (eq_filter column v a) eqn:Ha.
  - intros [= -> Hrest]. exists [], t. split; [reflexivity|]. simpl.
    f_equal. apply map_patch_absent. now apply filter_nil_absent.
  - intros Hf. destruct (IH Hf) as (l1 & l2 & -> & Hmap).
    exists (a :: l1), l2. split; [reflexivity|]. simpl. now rewrite Hmap.
Qed.

Lemma count_where_app (p : Status -> bool) (l1 l2 : list Consultation) :
  count_where p (l1 ++ l2) = count_where p l1 + count_where p l2.
Proof.
  induction l1 as [|a l1 IH]; simpl; [reflexivity|]. rewrite IH. lia.
Qed.

Lemma stats_figures (env : Env) (t : list Consultation) :
  select_error env = false ->
  exists revenue,
    reply (stats_handler env true) t
    = json 200 (JStats (count_where aggregated t)
                       (count_where (Status_eqb submitted) t)
                       (count_where (Status_eqb answered) t) revenue).
Proof.
  intros Hsel. rewrite (stats_reply env t Hsel). cbv zeta.
  rewrite length_selected, !length_selected_with by reflexivity.
  eexists. reflexivity.
Qed.

(** X22.  Answering a submitted row moves one unit from pending to
    answered on the dashboard and leaves the total as it was. *)
Theorem answering_moves_pending_to_answered (env envs : Env) (b : RespondBody)
    (t : list Consultation) (rid text : string) (c : Consultation) :
  body_id b = Some rid -> body_response b = Some text ->
  truthy (Some rid) = true -> truthy (Some text) = true ->
  select_error env = false -> update_error env = false ->
  store_ok t -> In c t -> id c = rid -> status c = submitted ->
  select_error envs = false ->
  exists total pending answered_count revenue revenue',
    reply (stats_handler envs true) t
    = json 200 (JStats total (S pending) answered_count revenue) /\
    reply (stats_handler envs true)
          (table_after (respond_handler env true b) t)
    = json 200 (JStats total pending (S answered_count) revenue').
Proof.
  intros Hid Hresp Tid Ttext Hsel Hupd Hok Hin Hc Hst Hsels.
  assert (Hf : filter (eq_filter id rid) t = [c])
    by (rewrite <- Hc; now apply id_lookup_found).
  destruct (respond_saves env b t rid text c Hid Hresp Tid Ttext Hsel Hupd Hf)
    as (Ht1 & _ & _).
  destruct (patched_split id rid (respond_patch env text) t c Hf)
    as (l1 & l2 & Ht & Hmap).
  rewrite Ht1, Hmap.
  destruct (stats_figures envs t Hsels) as (rev & Hs).
  destruct (stats_figures envs (l1 ++ respond_patch env text c :: l2) Hsels)
    as (rev' & Hs').
  rewrite Hs, Hs'. rewrite Ht.
  rewrite !count_where_app. simpl count_where. rewrite Hst.
  cbn [aggregated Status_eqb status respond_patch].
  exists (count_where aggregated l1 + (1 + count_where aggregated l2)),
         (count_where (Status_eqb submitted) l1
          + count_where (Status_eqb submitted) l2),
         (count_where (Status_eqb answered) l1
          + count_where (Status_eqb answered) l2), rev, rev'.
  split; f_equal; f_equal; lia.
Qed.

Lemma answering_moves_pending_to_answered_witness :
  exists total pending answered_count revenue revenue',
    reply (stats_handler (sample_env false false) true)
          [sample_row "a1" "cs_1" submitted 15;
           sample_row "a2" "cs_2" answered 5]
    = json 200 (JStats total (S pending) answered_count revenue) /\
    reply (stats_handler (sample_env false false) true)
          (table_after (respond_handler (sample_env false true) true
                          (sample_answer "a1"))
             [sample_row "a1" "cs_1" submitted 15;
              sample_row "a2" "cs_2" answered 5])
    = json 200 (JStats total pending (S answered_count) revenue').
Proof.
  assert (Hok : store_ok [sample_row "a1" "cs_1" submitted 15;
                          sample_row "a2" "cs_2" answered 5]) by table_ok.
  apply (answering_moves_pending_to_answered (sample_env false true)
           (sample_env false false) (sample_answer "a1")
           [sample_row "a1" "cs_1" submitted 15;
            sample_row "a2" "cs_2" answered 5]
           "a1" "Voici ma guidance" (sample_row "a1" "cs_1" submitted 15)
           eq_refl eq_refl eq_refl eq_refl eq_refl eq_refl Hok
           (or_introl eq_refl) eq_refl eq_refl eq_refl).
Defined.

(** X23.  A submit that turns the [paid] row of a session into the
    submitted one adds one to the total and to pending on the dashboard;
    the answered figure stays. *)
Theorem submitting_enters_the_dashboard (env envs : Env) (b : SubmitBody)
    (t : list Consultation) (sid : string) (c : Consultation) :
  required_fields b -> body_session_id b = Some sid ->
  select_error env = false -> update_error env = false ->
  store_ok t -> In c t -> stripe_session_id c = sid -> status c = paid ->
  select_error envs = false ->
  exists total pending answered_count revenue revenue',
    reply (stats_handler envs true) t
    = json 200 (JStats total pending answered_count revenue) /\
    reply (stats_handler envs true)
          (table_after (submit_handler env b) t)
    = json 200 (JStats (S total) (S pending) answered_count revenue').
Proof.
  intros Hreq Hb Hsel Hupd Hok Hin Hc Hst Hsels.
  assert (Hf : filter (eq_filter stripe_session_id sid) t = [c])
    by (rewrite <- Hc; now apply session_lookup_found).
  assert (Ht1 : table_after (submit_handler env b) t
                = map (fun x => if eq_filter stripe_session_id sid x
                                then submit_patch env b x else x) t).
  { unfold table_after.
    now rewrite (submit_updates env b t sid c Hreq Hb Hsel Hupd Hf Hst). }
  destruct (patched_split stripe_session_id sid (submit_patch env b) t c Hf)
    as (l1 & l2 & Ht & Hmap).
  rewrite Ht1, Hmap.
  destruct (stats_figures envs t Hsels) as (rev & Hs).
  destruct (stats_figures envs (l1 ++ submit_patch env b c :: l2) Hsels)
    as (rev' & Hs').
  rewrite Hs, Hs'. rewrite Ht.
  rewrite !count_where_app. simpl count_where. rewrite Hst.
  cbn [aggregated Status_eqb status submit_patch].
  exists (count_where aggregated l1 + count_where aggregated l2),
         (count_where (Status_eqb submitted) l1
          + count_where (Status_eqb submitted) l2),
         (count_where (Status_eqb answered) l1
          + count_where (Status_eqb answered) l2), rev, rev'.
  split; f_equal; f_equal; lia.
Qed.

Lemma submitting_enters_the_dashboard_witness :
  exists total pending answered_count revenue revenue',
    reply (stats_handler (sample_env false false) true)
          [sample_row "a1" "cs_123" paid 15]
    = json 200 (JStats total pending answered_count revenue) /\
    reply (stats_handler (sample_env false false) true)
          (table_after (submit_handler (sample_env false false)
                          (sample_body "cs_123"))
             [sample_row "a1" "cs_123" paid 15])
    = json 200 (JStats (S total) (S pending) answered_count revenue').
Proof.
  assert (Hok : store_ok [sample_row "a1" "cs_123" paid 15]) by table_ok.
  assert (Hreq : required_fields (sample_body "cs_123")) by (repeat split).
  apply (submitting_enters_the_dashboard (sample_env false false)
           (sample_env false false) (sample_body "cs_123")
           [sample_row "a1" "cs_123" paid 15] "cs_123"
           (sample_row "a1" "cs_123" paid 15)
           Hreq eq_refl eq_refl eq_refl Hok (or_introl eq_refl)
           eq_refl eq_refl eq_refl).
Defined.
